(** * DemoProcess: the simulated process of [demoprocess.py]

    A shallow embedding of the [DemoProcess] class: its attributes as a
    record, its methods as computations in a state-and-exception monad,
    Python integers as [Z], Python floats as IEEE 754 binary64 values
    ([spec_float] with [prec = 53], [emax = 1024]), the [curses] colour
    service and the random generator as explicit inputs. *)

From Stdlib Require Import ZArith List String Ascii Bool Lia.
From Stdlib Require Import DecimalString.
From Stdlib Require Import Floats.SpecFloat.
Import ListNotations.

Open Scope string_scope.
Open Scope Z_scope.

(** ** The Python run time the class relies on *)

Module Py.

(** Python [float]: binary64, rounding to nearest even. *)
Definition float : Type := spec_float.
Definition prec : Z := 53.
Definition emax : Z := 1024.

Definition fadd : float -> float -> float := SFadd prec emax.
Definition fmul : float -> float -> float := SFmul prec emax.
Definition fdiv : float -> float -> float := SFdiv prec emax.

(** [float(z)] for an integer [z]. *)
Definition float_of_int (z : Z) : float :=
  binary_normalize prec emax z 0 false.

(** [x >= y] and [x <= y] on floats: false as soon as one side is NaN. *)
Definition fle (x y : float) : bool := SFleb x y.
Definition fge (x y : float) : bool := SFleb y x.
Definition feq (x y : float) : bool := SFeqb x y.

(** The float literals of the source, as the nearest binary64 value. *)
Definition f0_0 : float := S754_zero false.
Definition f0_1 : float := S754_finite false 7205759403792794 (-56).
Definition f1_0 : float := S754_finite false 4503599627370496 (-52).
Definition fm1_0 : float := S754_finite true 4503599627370496 (-52).

(** Exceptions that the modelled code can raise. [CursesError] is
    [curses.error]. *)
Inductive exn : Type :=
  | AttributeError
  | TypeError
  | IndexError
  | CursesError.

(** A dynamically typed object held by an attribute that the class
    sets to [None] before it holds a number. *)
Inductive obj : Type :=
  | PyNone
  | PyInt (z : Z).

(** An attribute slot: [None] when the instance has no such attribute. *)
Definition attr : Type := option obj.

Definition add (a b : obj) : exn + obj :=
  match a, b with
  | PyInt x, PyInt y => inr (PyInt (x + y))
  | _, _ => inl TypeError
  end.

Definition sub (a b : obj) : exn + obj :=
  match a, b with
  | PyInt x, PyInt y => inr (PyInt (x - y))
  | _, _ => inl TypeError
  end.

Definition mul (a b : obj) : exn + obj :=
  match a, b with
  | PyInt x, PyInt y => inr (PyInt (x * y))
  | _, _ => inl TypeError
  end.

Definition ge (a b : obj) : exn + bool :=
  match a, b with
  | PyInt x, PyInt y => inr (x >=? y)
  | _, _ => inl TypeError
  end.

Definition le (a b : obj) : exn + bool :=
  match a, b with
  | PyInt x, PyInt y => inr (x <=? y)
  | _, _ => inl TypeError
  end.

Definition lt (a b : obj) : exn + bool :=
  match a, b with
  | PyInt x, PyInt y => inr (x <? y)
  | _, _ => inl TypeError
  end.

Definition gt (a b : obj) : exn + bool :=
  match a, b with
  | PyInt x, PyInt y => inr (x >? y)
  | _, _ => inl TypeError
  end.

(** The built-ins [min(a, b)] and [max(a, b)]: the first argument is
    kept unless the second is strictly smaller (larger). *)
Definition min (a b : obj) : exn + obj :=
  match lt b a with
  | inr c => inr (if c then b else a)
  | inl e => inl e
  end.

Definition max (a b : obj) : exn + obj :=
  match gt b a with
  | inr c => inr (if c then b else a)
  | inl e => inl e
  end.

(** An integer argument of a C function such as [curses.init_color]. *)
Definition as_int (a : obj) : exn + Z :=
  match a with
  | PyInt z => inr z
  | PyNone => inl TypeError
  end.

(** [random.choice(seq)], given the index [r] that the generator's
    [_randbelow(len(seq))] returns for this call. *)
Definition choice {A : Type} (r : nat) (seq : list A) : exn + A :=
  match nth_error seq r with
  | Some x => inr x
  | None => inl IndexError
  end.

(** *** String formatting *)

(** [str(z)] for an integer. *)
Definition str_int (z : Z) : string := NilZero.string_of_int (Z.to_int z).

(** ["{0}".format(o)] for a dynamically typed object. *)
Definition str_obj (o : obj) : string :=
  match o with
  | PyNone => "None"
  | PyInt z => str_int z
  end.

(** [n / d] rounded to the nearest integer, ties to even
    ([0 <= n], [0 < d]). *)
Definition round_half_even (n d : Z) : Z :=
  let q := n / d in
  match 2 * (n mod d) ?= d with
  | Lt => q
  | Eq => if Z.even q then q else q + 1
  | Gt => q + 1
  end.

(** [m * 2^e * 100], correctly rounded to an integer. *)
Definition hundredths (m : positive) (e : Z) : Z :=
  match e with
  | Zneg p => round_half_even (100 * Zpos m) (2 ^ Zpos p)
  | _ => 100 * Zpos m * 2 ^ e
  end.

Definition sign_str (s : bool) : string := if s then "-" else "".

Definition two_digits (n : Z) : string :=
  if n <? 10 then "0" ++ str_int n else str_int n.

(** ["{:.2f}".format(x)]: fixed notation with two decimals, the exact
    binary value rounded half to even. *)
Definition format_2f (x : float) : string :=
  match x with
  | S754_nan => "nan"
  | S754_infinity s => sign_str s ++ "inf"
  | S754_zero s => sign_str s ++ "0.00"
  | S754_finite s m e =>
      let q := hundredths m e in
      sign_str s ++ str_int (q / 100) ++ "." ++ two_digits (q mod 100)
  end.

End Py.

Import Py.

(** ** The two enumerations *)

Inductive DemoStates : Type :=
  | Disconnected
  | Idle
  | Cycling
  | Faulted.

Inductive DemoModes : Type :=
  | Disabled
  | Setup
  | Test
  | Run.

Module DemoStates_.
Definition name (d : DemoStates) : string :=
  match d with
  | Disconnected => "Disconnected"
  | Idle => "Idle"
  | Cycling => "Cycling"
  | Faulted => "Faulted"
  end.

Definition value (d : DemoStates) : Z :=
  match d with
  | Disconnected => 0
  | Idle => 1
  | Cycling => 2
  | Faulted => 3
  end.

(** [list(DemoStates)]: the members in definition order. *)
Definition members : list DemoStates := [Disconnected; Idle; Cycling; Faulted].
End DemoStates_.

Module DemoModes_.
Definition name (m : DemoModes) : string :=
  match m with
  | Disabled => "Disabled"
  | Setup => "Setup"
  | Test => "Test"
  | Run => "Run"
  end.

Definition value (m : DemoModes) : Z :=
  match m with
  | Disabled => 22
  | Setup => 44
  | Test => 33
  | Run => 11
  end.

(** [list(DemoModes)]. *)
Definition members : list DemoModes := [Disabled; Setup; Test; Run].
End DemoModes_.

(** ** The attributes of a [DemoProcess] instance *)

Record DemoProcess : Type := mkDemoProcess {
  current_temperature : Z;
  _temperature_delta : Z;
  max_temperature : Z;
  min_temperature : Z;
  current_state_name : string;
  _state_delay : Z;
  _state_count : Z;
  mode : DemoModes;
  demo_red_color : attr;
  demo_green_color : attr;
  demo_blue_color : attr;
  demo_red_delta : attr;
  demo_green_delta : attr;
  demo_blue_delta : attr;
  current_percent : Py.float;
  _percent_delta : Py.float;
  max_percent : Py.float;
  min_percent : Py.float;
  max_color_value : attr;
  min_color_value : attr;
  demo_red_value : attr;
  demo_green_value : attr;
  demo_blue_value : attr;
  demo_color_pair2 : attr;
  demo_pair2_delta : attr;
  demo_color_number : attr;
  total_color_pairs : attr;
  demo_color_pair : attr
}.

Definition set_current_temperature (v : Z) (self : DemoProcess) : DemoProcess :=
  mkDemoProcess
    v (_temperature_delta self) (max_temperature self)
    (min_temperature self) (current_state_name self) (_state_delay self)
    (_state_count self) (mode self) (demo_red_color self)
    (demo_green_color self) (demo_blue_color self) (demo_red_delta self)
    (demo_green_delta self) (demo_blue_delta self) (current_percent self)
    (_percent_delta self) (max_percent self) (min_percent self)
    (max_color_value self) (min_color_value self) (demo_red_value self)
    (demo_green_value self) (demo_blue_value self) (demo_color_pair2 self)
    (demo_pair2_delta self) (demo_color_number self)
    (total_color_pairs self) (demo_color_pair self).

Definition set__temperature_delta (v : Z) (self : DemoProcess) : DemoProcess :=
  mkDemoProcess
    (current_temperature self) v (max_temperature self)
    (min_temperature self) (current_state_name self) (_state_delay self)
    (_state_count self) (mode self) (demo_red_color self)
    (demo_green_color self) (demo_blue_color self) (demo_red_delta self)
    (demo_green_delta self) (demo_blue_delta self) (current_percent self)
    (_percent_delta self) (max_percent self) (min_percent self)
    (max_color_value self) (min_color_value self) (demo_red_value self)
    (demo_green_value self) (demo_blue_value self) (demo_color_pair2 self)
    (demo_pair2_delta self) (demo_color_number self)
    (total_color_pairs self) (demo_color_pair self).

Definition set_max_temperature (v : Z) (self : DemoProcess) : DemoProcess :=
  mkDemoProcess
    (current_temperature self) (_temperature_delta self) v
    (min_temperature self) (current_state_name self) (_state_delay self)
    (_state_count self) (mode self) (demo_red_color self)
    (demo_green_color self) (demo_blue_color self) (demo_red_delta self)
    (demo_green_delta self) (demo_blue_delta self) (current_percent self)
    (_percent_delta self) (max_percent self) (min_percent self)
    (max_color_value self) (min_color_value self) (demo_red_value self)
    (demo_green_value self) (demo_blue_value self) (demo_color_pair2 self)
    (demo_pair2_delta self) (demo_color_number self)
    (total_color_pairs self) (demo_color_pair self).

Definition set_min_temperature (v : Z) (self : DemoProcess) : DemoProcess :=
  mkDemoProcess
    (current_temperature self) (_temperature_delta self)
    (max_temperature self) v (current_state_name self) (_state_delay self)
    (_state_count self) (mode self) (demo_red_color self)
    (demo_green_color self) (demo_blue_color self) (demo_red_delta self)
    (demo_green_delta self) (demo_blue_delta self) (current_percent self)
    (_percent_delta self) (max_percent self) (min_percent self)
    (max_color_value self) (min_color_value self) (demo_red_value self)
    (demo_green_value self) (demo_blue_value self) (demo_color_pair2 self)
    (demo_pair2_delta self) (demo_color_number self)
    (total_color_pairs self) (demo_color_pair self).

Definition set_current_state_name (v : string) (self : DemoProcess) : DemoProcess :=
  mkDemoProcess
    (current_temperature self) (_temperature_delta self)
    (max_temperature self) (min_temperature self) v (_state_delay self)
    (_state_count self) (mode self) (demo_red_color self)
    (demo_green_color self) (demo_blue_color self) (demo_red_delta self)
    (demo_green_delta self) (demo_blue_delta self) (current_percent self)
    (_percent_delta self) (max_percent self) (min_percent self)
    (max_color_value self) (min_color_value self) (demo_red_value self)
    (demo_green_value self) (demo_blue_value self) (demo_color_pair2 self)
    (demo_pair2_delta self) (demo_color_number self)
    (total_color_pairs self) (demo_color_pair self).

Definition set__state_count (v : Z) (self : DemoProcess) : DemoProcess :=
  mkDemoProcess
    (current_temperature self) (_temperature_delta self)
    (max_temperature self) (min_temperature self) (current_state_name self)
    (_state_delay self) v (mode self) (demo_red_color self)
    (demo_green_color self) (demo_blue_color self) (demo_red_delta self)
    (demo_green_delta self) (demo_blue_delta self) (current_percent self)
    (_percent_delta self) (max_percent self) (min_percent self)
    (max_color_value self) (min_color_value self) (demo_red_value self)
    (demo_green_value self) (demo_blue_value self) (demo_color_pair2 self)
    (demo_pair2_delta self) (demo_color_number self)
    (total_color_pairs self) (demo_color_pair self).

Definition set_mode (v : DemoModes) (self : DemoProcess) : DemoProcess :=
  mkDemoProcess
    (current_temperature self) (_temperature_delta self)
    (max_temperature self) (min_temperature self) (current_state_name self)
    (_state_delay self) (_state_count self) v (demo_red_color self)
    (demo_green_color self) (demo_blue_color self) (demo_red_delta self)
    (demo_green_delta self) (demo_blue_delta self) (current_percent self)
    (_percent_delta self) (max_percent self) (min_percent self)
    (max_color_value self) (min_color_value self) (demo_red_value self)
    (demo_green_value self) (demo_blue_value self) (demo_color_pair2 self)
    (demo_pair2_delta self) (demo_color_number self)
    (total_color_pairs self) (demo_color_pair self).

Definition set_demo_red_delta (v : attr) (self : DemoProcess) : DemoProcess :=
  mkDemoProcess
    (current_temperature self) (_temperature_delta self)
    (max_temperature self) (min_temperature self) (current_state_name self)
    (_state_delay self) (_state_count self) (mode self)
    (demo_red_color self) (demo_green_color self) (demo_blue_color self) v
    (demo_green_delta self) (demo_blue_delta self) (current_percent self)
    (_percent_delta self) (max_percent self) (min_percent self)
    (max_color_value self) (min_color_value self) (demo_red_value self)
    (demo_green_value self) (demo_blue_value self) (demo_color_pair2 self)
    (demo_pair2_delta self) (demo_color_number self)
    (total_color_pairs self) (demo_color_pair self).

Definition set_demo_green_delta (v : attr) (self : DemoProcess) : DemoProcess :=
  mkDemoProcess
    (current_temperature self) (_temperature_delta self)
    (max_temperature self) (min_temperature self) (current_state_name self)
    (_state_delay self) (_state_count self) (mode self)
    (demo_red_color self) (demo_green_color self) (demo_blue_color self)
    (demo_red_delta self) v (demo_blue_delta self) (current_percent self)
    (_percent_delta self) (max_percent self) (min_percent self)
    (max_color_value self) (min_color_value self) (demo_red_value self)
    (demo_green_value self) (demo_blue_value self) (demo_color_pair2 self)
    (demo_pair2_delta self) (demo_color_number self)
    (total_color_pairs self) (demo_color_pair self).

Definition set_demo_blue_delta (v : attr) (self : DemoProcess) : DemoProcess :=
  mkDemoProcess
    (current_temperature self) (_temperature_delta self)
    (max_temperature self) (min_temperature self) (current_state_name self)
    (_state_delay self) (_state_count self) (mode self)
    (demo_red_color self) (demo_green_color self) (demo_blue_color self)
    (demo_red_delta self) (demo_green_delta self) v (current_percent self)
    (_percent_delta self) (max_percent self) (min_percent self)
    (max_color_value self) (min_color_value self) (demo_red_value self)
    (demo_green_value self) (demo_blue_value self) (demo_color_pair2 self)
    (demo_pair2_delta self) (demo_color_number self)
    (total_color_pairs self) (demo_color_pair self).

Definition set_current_percent (v : Py.float) (self : DemoProcess) : DemoProcess :=
  mkDemoProcess
    (current_temperature self) (_temperature_delta self)
    (max_temperature self) (min_temperature self) (current_state_name self)
    (_state_delay self) (_state_count self) (mode self)
    (demo_red_color self) (demo_green_color self) (demo_blue_color self)
    (demo_red_delta self) (demo_green_delta self) (demo_blue_delta self) v
    (_percent_delta self) (max_percent self) (min_percent self)
    (max_color_value self) (min_color_value self) (demo_red_value self)
    (demo_green_value self) (demo_blue_value self) (demo_color_pair2 self)
    (demo_pair2_delta self) (demo_color_number self)
    (total_color_pairs self) (demo_color_pair self).

Definition set__percent_delta (v : Py.float) (self : DemoProcess) : DemoProcess :=
  mkDemoProcess
    (current_temperature self) (_temperature_delta self)
    (max_temperature self) (min_temperature self) (current_state_name self)
    (_state_delay self) (_state_count self) (mode self)
    (demo_red_color self) (demo_green_color self) (demo_blue_color self)
    (demo_red_delta self) (demo_green_delta self) (demo_blue_delta self)
    (current_percent self) v (max_percent self) (min_percent self)
    (max_color_value self) (min_color_value self) (demo_red_value self)
    (demo_green_value self) (demo_blue_value self) (demo_color_pair2 self)
    (demo_pair2_delta self) (demo_color_number self)
    (total_color_pairs self) (demo_color_pair self).

Definition set_max_percent (v : Py.float) (self : DemoProcess) : DemoProcess :=
  mkDemoProcess
    (current_temperature self) (_temperature_delta self)
    (max_temperature self) (min_temperature self) (current_state_name self)
    (_state_delay self) (_state_count self) (mode self)
    (demo_red_color self) (demo_green_color self) (demo_blue_color self)
    (demo_red_delta self) (demo_green_delta self) (demo_blue_delta self)
    (current_percent self) (_percent_delta self) v (min_percent self)
    (max_color_value self) (min_color_value self) (demo_red_value self)
    (demo_green_value self) (demo_blue_value self) (demo_color_pair2 self)
    (demo_pair2_delta self) (demo_color_number self)
    (total_color_pairs self) (demo_color_pair self).

Definition set_min_percent (v : Py.float) (self : DemoProcess) : DemoProcess :=
  mkDemoProcess
    (current_temperature self) (_temperature_delta self)
    (max_temperature self) (min_temperature self) (current_state_name self)
    (_state_delay self) (_state_count self) (mode self)
    (demo_red_color self) (demo_green_color self) (demo_blue_color self)
    (demo_red_delta self) (demo_green_delta self) (demo_blue_delta self)
    (current_percent self) (_percent_delta self) (max_percent self) v
    (max_color_value self) (min_color_value self) (demo_red_value self)
    (demo_green_value self) (demo_blue_value self) (demo_color_pair2 self)
    (demo_pair2_delta self) (demo_color_number self)
    (total_color_pairs self) (demo_color_pair self).

Definition set_max_color_value (v : attr) (self : DemoProcess) : DemoProcess :=
  mkDemoProcess
    (current_temperature self) (_temperature_delta self)
    (max_temperature self) (min_temperature self) (current_state_name self)
    (_state_delay self) (_state_count self) (mode self)
    (demo_red_color self) (demo_green_color self) (demo_blue_color self)
    (demo_red_delta self) (demo_green_delta self) (demo_blue_delta self)
    (current_percent self) (_percent_delta self) (max_percent self)
    (min_percent self) v (min_color_value self) (demo_red_value self)
    (demo_green_value self) (demo_blue_value self) (demo_color_pair2 self)
    (demo_pair2_delta self) (demo_color_number self)
    (total_color_pairs self) (demo_color_pair self).

Definition set_min_color_value (v : attr) (self : DemoProcess) : DemoProcess :=
  mkDemoProcess
    (current_temperature self) (_temperature_delta self)
    (max_temperature self) (min_temperature self) (current_state_name self)
    (_state_delay self) (_state_count self) (mode self)
    (demo_red_color self) (demo_green_color self) (demo_blue_color self)
    (demo_red_delta self) (demo_green_delta self) (demo_blue_delta self)
    (current_percent self) (_percent_delta self) (max_percent self)
    (min_percent self) (max_color_value self) v (demo_red_value self)
    (demo_green_value self) (demo_blue_value self) (demo_color_pair2 self)
    (demo_pair2_delta self) (demo_color_number self)
    (total_color_pairs self) (demo_color_pair self).

Definition set_demo_red_value (v : attr) (self : DemoProcess) : DemoProcess :=
  mkDemoProcess
    (current_temperature self) (_temperature_delta self)
    (max_temperature self) (min_temperature self) (current_state_name self)
    (_state_delay self) (_state_count self) (mode self)
    (demo_red_color self) (demo_green_color self) (demo_blue_color self)
    (demo_red_delta self) (demo_green_delta self) (demo_blue_delta self)
    (current_percent self) (_percent_delta self) (max_percent self)
    (min_percent self) (max_color_value self) (min_color_value self) v
    (demo_green_value self) (demo_blue_value self) (demo_color_pair2 self)
    (demo_pair2_delta self) (demo_color_number self)
    (total_color_pairs self) (demo_color_pair self).

Definition set_demo_green_value (v : attr) (self : DemoProcess) : DemoProcess :=
  mkDemoProcess
    (current_temperature self) (_temperature_delta self)
    (max_temperature self) (min_temperature self) (current_state_name self)
    (_state_delay self) (_state_count self) (mode self)
    (demo_red_color self) (demo_green_color self) (demo_blue_color self)
    (demo_red_delta self) (demo_green_delta self) (demo_blue_delta self)
    (current_percent self) (_percent_delta self) (max_percent self)
    (min_percent self) (max_color_value self) (min_color_value self)
    (demo_red_value self) v (demo_blue_value self) (demo_color_pair2 self)
    (demo_pair2_delta self) (demo_color_number self)
    (total_color_pairs self) (demo_color_pair self).

Definition set_demo_blue_value (v : attr) (self : DemoProcess) : DemoProcess :=
  mkDemoProcess
    (current_temperature self) (_temperature_delta self)
    (max_temperature self) (min_temperature self) (current_state_name self)
    (_state_delay self) (_state_count self) (mode self)
    (demo_red_color self) (demo_green_color self) (demo_blue_color self)
    (demo_red_delta self) (demo_green_delta self) (demo_blue_delta self)
    (current_percent self) (_percent_delta self) (max_percent self)
    (min_percent self) (max_color_value self) (min_color_value self)
    (demo_red_value self) (demo_green_value self) v (demo_color_pair2 self)
    (demo_pair2_delta self) (demo_color_number self)
    (total_color_pairs self) (demo_color_pair self).

Definition set_demo_color_pair2 (v : attr) (self : DemoProcess) : DemoProcess :=
  mkDemoProcess
    (current_temperature self) (_temperature_delta self)
    (max_temperature self) (min_temperature self) (current_state_name self)
    (_state_delay self) (_state_count self) (mode self)
    (demo_red_color self) (demo_green_color self) (demo_blue_color self)
    (demo_red_delta self) (demo_green_delta self) (demo_blue_delta self)
    (current_percent self) (_percent_delta self) (max_percent self)
    (min_percent self) (max_color_value self) (min_color_value self)
    (demo_red_value self) (demo_green_value self) (demo_blue_value self) v
    (demo_pair2_delta self) (demo_color_number self)
    (total_color_pairs self) (demo_color_pair self).

Definition set_demo_pair2_delta (v : attr) (self : DemoProcess) : DemoProcess :=
  mkDemoProcess
    (current_temperature self) (_temperature_delta self)
    (max_temperature self) (min_temperature self) (current_state_name self)
    (_state_delay self) (_state_count self) (mode self)
    (demo_red_color self) (demo_green_color self) (demo_blue_color self)
    (demo_red_delta self) (demo_green_delta self) (demo_blue_delta self)
    (current_percent self) (_percent_delta self) (max_percent self)
    (min_percent self) (max_color_value self) (min_color_value self)
    (demo_red_value self) (demo_green_value self) (demo_blue_value self)
    (demo_color_pair2 self) v (demo_color_number self)
    (total_color_pairs self) (demo_color_pair self).

Definition set_demo_color_number (v : attr) (self : DemoProcess) : DemoProcess :=
  mkDemoProcess
    (current_temperature self) (_temperature_delta self)
    (max_temperature self) (min_temperature self) (current_state_name self)
    (_state_delay self) (_state_count self) (mode self)
    (demo_red_color self) (demo_green_color self) (demo_blue_color self)
    (demo_red_delta self) (demo_green_delta self) (demo_blue_delta self)
    (current_percent self) (_percent_delta self) (max_percent self)
    (min_percent self) (max_color_value self) (min_color_value self)
    (demo_red_value self) (demo_green_value self) (demo_blue_value self)
    (demo_color_pair2 self) (demo_pair2_delta self) v
    (total_color_pairs self) (demo_color_pair self).

Definition set_total_color_pairs (v : attr) (self : DemoProcess) : DemoProcess :=
  mkDemoProcess
    (current_temperature self) (_temperature_delta self)
    (max_temperature self) (min_temperature self) (current_state_name self)
    (_state_delay self) (_state_count self) (mode self)
    (demo_red_color self) (demo_green_color self) (demo_blue_color self)
    (demo_red_delta self) (demo_green_delta self) (demo_blue_delta self)
    (current_percent self) (_percent_delta self) (max_percent self)
    (min_percent self) (max_color_value self) (min_color_value self)
    (demo_red_value self) (demo_green_value self) (demo_blue_value self)
    (demo_color_pair2 self) (demo_pair2_delta self)
    (demo_color_number self) v (demo_color_pair self).

Definition set_demo_color_pair (v : attr) (self : DemoProcess) : DemoProcess :=
  mkDemoProcess
    (current_temperature self) (_temperature_delta self)
    (max_temperature self) (min_temperature self) (current_state_name self)
    (_state_delay self) (_state_count self) (mode self)
    (demo_red_color self) (demo_green_color self) (demo_blue_color self)
    (demo_red_delta self) (demo_green_delta self) (demo_blue_delta self)
    (current_percent self) (_percent_delta self) (max_percent self)
    (min_percent self) (max_color_value self) (min_color_value self)
    (demo_red_value self) (demo_green_value self) (demo_blue_value self)
    (demo_color_pair2 self) (demo_pair2_delta self)
    (demo_color_number self) (total_color_pairs self) v.

(** ** Computations on an instance

    A method runs on the instance and either returns normally or raises;
    in both cases the instance keeps the assignments made so far. *)

Inductive result (A : Type) : Type :=
  | Ok (a : A) (self : DemoProcess)
  | Raise (e : exn) (self : DemoProcess).

Arguments Ok {A} a self.
Arguments Raise {A} e self.

Definition M (A : Type) : Type := DemoProcess -> result A.

Definition ret {A : Type} (a : A) : M A := fun self => Ok a self.

Definition bind {A B : Type} (m : M A) (k : A -> M B) : M B :=
  fun self =>
    match m self with
    | Ok a self' => k a self'
    | Raise e self' => Raise e self'
    end.

Definition raise {A : Type} (e : exn) : M A := fun self => Raise e self.

Declare Scope py_scope.
Delimit Scope py_scope with py.
Notation "x <- m ;; k" := (bind m (fun x => k))
  (at level 61, m at next level, right associativity) : py_scope.
Notation "m ;; k" := (bind m (fun _ => k))
  (at level 61, right associativity) : py_scope.
Open Scope py_scope.

(** The result of a run-time operation that may raise. *)
Definition lift {A : Type} (x : exn + A) : M A :=
  match x with
  | inr a => ret a
  | inl e => raise e
  end.

(** [self.f] for an attribute that [__init__] creates with a fixed type. *)
Definition read {A : Type} (f : DemoProcess -> A) : M A :=
  fun self => Ok (f self) self.

(** [self.f] for an attribute that may not exist yet. *)
Definition getattr (f : DemoProcess -> attr) : M obj :=
  fun self =>
    match f self with
    | Some o => Ok o self
    | None => Raise AttributeError self
    end.

(** [self.f = v], through the setter of [f]. *)
Definition assign (set : DemoProcess -> DemoProcess) : M unit :=
  fun self => Ok tt (set self).

Definition state_of {A : Type} (r : result A) : DemoProcess :=
  match r with
  | Ok _ self => self
  | Raise _ self => self
  end.

Definition returned {A : Type} (r : result A) : bool :=
  match r with
  | Ok _ _ => true
  | Raise _ _ => false
  end.

(** ** The collaborators *)

(** The colour service of [curses]: for each call, whether the terminal
    accepts it ([true]) or the call raises [curses.error] ([false]). *)
Record Curses : Type := {
  init_color : Z -> Z -> Z -> Z -> bool;
  init_pair : Z -> Z -> Z -> bool
}.

Definition COLOR_BLACK : Z := 0.

Definition curses_init_color (curses : Curses) (n r g b : obj) : M unit :=
  n' <- lift (as_int n) ;;
  r' <- lift (as_int r) ;;
  g' <- lift (as_int g) ;;
  b' <- lift (as_int b) ;;
  if init_color curses n' r' g' b' then ret tt else raise CursesError.

Definition curses_init_pair (curses : Curses) (p fg bg : obj) : M unit :=
  p' <- lift (as_int p) ;;
  fg' <- lift (as_int fg) ;;
  bg' <- lift (as_int bg) ;;
  if init_pair curses p' fg' bg' then ret tt else raise CursesError.

(** What [_init_demo_color] reads from the [CursesUI] instance
    ([ui_total_color_pairs] is its attribute [total_color_pairs]). *)
Record CursesUI : Type := {
  total_color_numbers : Z;
  ui_total_color_pairs : Z
}.

(** ** The methods of [DemoProcess] *)

Definition __init__ : DemoProcess := {|
  current_temperature := 20;
  _temperature_delta := 1;
  max_temperature := 30;
  min_temperature := 10;
  current_state_name := DemoStates_.name Disconnected;
  _state_delay := 5;
  _state_count := 5;
  mode := Disabled;
  demo_red_color := Some PyNone;
  demo_green_color := Some PyNone;
  demo_blue_color := Some PyNone;
  demo_red_delta := Some PyNone;
  demo_green_delta := Some PyNone;
  demo_blue_delta := Some PyNone;
  current_percent := f0_0;
  _percent_delta := f0_1;
  max_percent := f1_0;
  min_percent := fm1_0;
  max_color_value := None;
  min_color_value := None;
  demo_red_value := None;
  demo_green_value := None;
  demo_blue_value := None;
  demo_color_pair2 := None;
  demo_pair2_delta := None;
  demo_color_number := None;
  total_color_pairs := None;
  demo_color_pair := None
|}.

Definition _update_temperature : M unit :=
  t <- read current_temperature ;;
  d <- read _temperature_delta ;;
  assign (set_current_temperature (t + d)) ;;
  c <- (t <- read current_temperature ;;
        hi <- read max_temperature ;;
        if t >=? hi then ret true
        else
          t <- read current_temperature ;;
          lo <- read min_temperature ;;
          ret (t <=? lo)) ;;
  if c : bool then
    d <- read _temperature_delta ;;
    assign (set__temperature_delta (d * -1))
  else ret tt.

Definition _update_percent : M unit :=
  p <- read current_percent ;;
  d <- read _percent_delta ;;
  assign (set_current_percent (fadd p d)) ;;
  c <- (p <- read current_percent ;;
        hi <- read max_percent ;;
        if fge p hi then ret true
        else
          p <- read current_percent ;;
          lo <- read min_percent ;;
          ret (fle p lo)) ;;
  if c : bool then
    d <- read _percent_delta ;;
    assign (set__percent_delta (fmul d (float_of_int (-1))))
  else ret tt.

(** [r] is the index drawn by [random.choice] when the call reselects. *)
Definition _update_state (r : nat) : M unit :=
  n <- read _state_count ;;
  assign (set__state_count (n - 1)) ;;
  n <- read _state_count ;;
  if n <=? 0 then
    delay <- read _state_delay ;;
    assign (set__state_count delay) ;;
    let state_list := DemoStates_.members in
    st <- lift (choice r state_list) ;;
    assign (set_current_state_name (DemoStates_.name st))
  else ret tt.

Definition _set_demo_color (curses : Curses) (red green blue : obj) : M unit :=
  n <- getattr demo_color_number ;;
  hi <- getattr max_color_value ;;
  lo <- getattr min_color_value ;;
  r0 <- lift (max red lo) ;;
  r <- lift (min hi r0) ;;
  hi <- getattr max_color_value ;;
  lo <- getattr min_color_value ;;
  g0 <- lift (max green lo) ;;
  g <- lift (min hi g0) ;;
  hi <- getattr max_color_value ;;
  lo <- getattr min_color_value ;;
  b0 <- lift (max blue lo) ;;
  b <- lift (min hi b0) ;;
  curses_init_color curses n r g b.

Definition _init_demo_color (curses : Curses) (demo_ui : CursesUI) : M unit :=
  assign (set_max_color_value (Some (PyInt 999))) ;;
  assign (set_min_color_value (Some (PyInt 0))) ;;
  assign (set_demo_red_value (Some (PyInt 500))) ;;
  assign (set_demo_green_value (Some (PyInt 500))) ;;
  assign (set_demo_blue_value (Some (PyInt 500))) ;;
  assign (set_demo_red_delta (Some (PyInt 3))) ;;
  assign (set_demo_green_delta (Some (PyInt 6))) ;;
  assign (set_demo_blue_delta (Some (PyInt 9))) ;;
  assign (set_demo_color_pair2 (Some (PyInt 1))) ;;
  assign (set_demo_pair2_delta (Some (PyInt 1))) ;;
  assign (set_demo_color_number
            (Some (PyInt (total_color_numbers demo_ui - 1)))) ;;
  r <- getattr demo_red_value ;;
  g <- getattr demo_green_value ;;
  b <- getattr demo_blue_value ;;
  _set_demo_color curses r g b ;;
  assign (set_total_color_pairs (Some (PyInt (ui_total_color_pairs demo_ui)))) ;;
  pairs <- getattr total_color_pairs ;;
  pair <- lift (sub pairs (PyInt 1)) ;;
  assign (set_demo_color_pair (Some pair)) ;;
  pair <- getattr demo_color_pair ;;
  n <- getattr demo_color_number ;;
  curses_init_pair curses pair (PyInt COLOR_BLACK) n.

Definition _update_color (curses : Curses) : M unit :=
  v <- getattr demo_red_value ;;
  d <- getattr demo_red_delta ;;
  v' <- lift (add v d) ;;
  assign (set_demo_red_value (Some v')) ;;
  c <- (v <- getattr demo_red_value ;;
        hi <- getattr max_color_value ;;
        over <- lift (ge v hi) ;;
        if over : bool then ret true
        else
          v <- getattr demo_red_value ;;
          lo <- getattr min_color_value ;;
          lift (le v lo)) ;;
  (if c : bool then
     d <- getattr demo_red_delta ;;
     d' <- lift (mul d (PyInt (-1))) ;;
     assign (set_demo_red_delta (Some d'))
   else ret tt) ;;
  v <- getattr demo_green_value ;;
  d <- getattr demo_green_delta ;;
  v' <- lift (add v d) ;;
  assign (set_demo_green_value (Some v')) ;;
  c <- (v <- getattr demo_green_value ;;
        hi <- getattr max_color_value ;;
        over <- lift (ge v hi) ;;
        if over : bool then ret true
        else
          v <- getattr demo_green_value ;;
          lo <- getattr min_color_value ;;
          lift (le v lo)) ;;
  (if c : bool then
     d <- getattr demo_green_delta ;;
     d' <- lift (mul d (PyInt (-1))) ;;
     assign (set_demo_green_delta (Some d'))
   else ret tt) ;;
  v <- getattr demo_blue_value ;;
  d <- getattr demo_blue_delta ;;
  v' <- lift (add v d) ;;
  assign (set_demo_blue_value (Some v')) ;;
  c <- (v <- getattr demo_blue_value ;;
        hi <- getattr max_color_value ;;
        over <- lift (ge v hi) ;;
        if over : bool then ret true
        else
          v <- getattr demo_blue_value ;;
          lo <- getattr min_color_value ;;
          lift (le v lo)) ;;
  (if c : bool then
     d <- getattr demo_blue_delta ;;
     d' <- lift (mul d (PyInt (-1))) ;;
     assign (set_demo_blue_delta (Some d'))
   else ret tt) ;;
  r <- getattr demo_red_value ;;
  g <- getattr demo_green_value ;;
  b <- getattr demo_blue_value ;;
  _set_demo_color curses r g b.

(** *** Read accessors *)

Definition get_demo_color_text : M string :=
  r <- getattr demo_red_value ;;
  g <- getattr demo_green_value ;;
  b <- getattr demo_blue_value ;;
  ret ("Color: R:" ++ str_obj r ++ " G:" ++ str_obj g ++ " B:" ++ str_obj b).

Definition get_demo_temperature_text : M string :=
  t <- read current_temperature ;;
  ret ("Current Temp: " ++ str_int t).

Definition get_demo_percent_text : M string :=
  p <- read current_percent ;;
  ret ("Percent: " ++ format_2f p).

Definition get_demo_state_text : M string :=
  n <- read current_state_name ;;
  ret ("Current State: " ++ n).

Definition get_demo_mode_text : M string :=
  let mode_list := DemoModes_.members in
  m <- read mode ;;
  ret ("Current Mode: " ++ DemoModes_.name m).

Definition get_demo_mode_value : M Z :=
  m <- read mode ;;
  ret (DemoModes_.value m).

Definition get_demo_tmax_text : M string :=
  t <- read max_temperature ;;
  ret ("Max Temperature: " ++ str_int t).

Definition get_demo_tmin_text : M string :=
  t <- read min_temperature ;;
  ret ("Min Temperature: " ++ str_int t).

Section FloatText.

(** ["{0}".format(x)] for a float [x] is Python's [repr(x)], the
    shortest decimal string that reads back as [x]; the accessors of
    the percent limits take it as given. *)
Variable repr_float : Py.float -> string.

Definition get_demo_pmax_text : M string :=
  p <- read max_percent ;;
  ret ("Max Percent: " ++ repr_float p).

Definition get_demo_pmin_text : M string :=
  p <- read min_percent ;;
  ret ("Min Percent: " ++ repr_float p).

End FloatText.

(** *** Write accessors *)

Definition set_demo_mode (newmode : DemoModes) : M unit :=
  assign (set_mode newmode).

Definition set_demo_max_temperature (tmax : Z) : M unit :=
  assign (set_max_temperature tmax).

Definition set_demo_min_temperature (tmin : Z) : M unit :=
  assign (set_min_temperature tmin).

Definition set_demo_max_percent (pmax : Py.float) : M unit :=
  assign (set_max_percent pmax).

Definition set_demo_min_percent (pmin : Py.float) : M unit :=
  assign (set_min_percent pmin).

(** *** The two periodic tasks

    Each task is [while True: body; await asyncio.sleep(_)]. The body
    runs to completion between two suspensions; [run_fast] and
    [run_slow] below are the first iterations of the loop of one task,
    which stops at the first exception that leaves the body. *)

Definition run_fast_body (curses : Curses) : M unit :=
  _update_color curses ;;
  _update_percent.

Fixpoint run_fast (curses : Curses) (ticks : nat) : M unit :=
  match ticks with
  | O => ret tt
  | S k => run_fast_body curses ;; run_fast curses k
  end.

Definition run_slow_body (curses : Curses) (r : nat) : M unit :=
  _update_temperature ;;
  _update_state r ;;
  _update_color curses.

(** One iteration per element of [draws], the indices that the random
    generator would return. *)
Fixpoint run_slow (curses : Curses) (draws : list nat) : M unit :=
  match draws with
  | [] => ret tt
  | r :: rest => run_slow_body curses r ;; run_slow curses rest
  end.

(** [n] successive calls of a method. *)
Fixpoint repeat_call (n : nat) (m : M unit) : M unit :=
  match n with
  | O => ret tt
  | S k => m ;; repeat_call k m
  end.

(** A terminal that accepts every colour definition, and one that
    rejects them all (for instance [TERM=xterm]). *)
Definition accepting : Curses :=
  {| init_color := fun _ _ _ _ => true; init_pair := fun _ _ _ => true |}.

Definition rejecting : Curses :=
  {| init_color := fun _ _ _ _ => false; init_pair := fun _ _ _ => true |}.

(** ** The attributes as a family, to state what a method leaves alone *)

Inductive value : Type :=
  | VInt (z : Z)
  | VFloat (x : Py.float)
  | VStr (s : string)
  | VMode (m : DemoModes)
  | VAttr (a : attr).

Inductive field : Type :=
  | F_current_temperature
  | F__temperature_delta
  | F_max_temperature
  | F_min_temperature
  | F_current_state_name
  | F__state_delay
  | F__state_count
  | F_mode
  | F_demo_red_color
  | F_demo_green_color
  | F_demo_blue_color
  | F_demo_red_delta
  | F_demo_green_delta
  | F_demo_blue_delta
  | F_current_percent
  | F__percent_delta
  | F_max_percent
  | F_min_percent
  | F_max_color_value
  | F_min_color_value
  | F_demo_red_value
  | F_demo_green_value
  | F_demo_blue_value
  | F_demo_color_pair2
  | F_demo_pair2_delta
  | F_demo_color_number
  | F_total_color_pairs
  | F_demo_color_pair.

Definition field_value (f : field) (self : DemoProcess) : value :=
  match f with
  | F_current_temperature => VInt (current_temperature self)
  | F__temperature_delta => VInt (_temperature_delta self)
  | F_max_temperature => VInt (max_temperature self)
  | F_min_temperature => VInt (min_temperature self)
  | F_current_state_name => VStr (current_state_name self)
  | F__state_delay => VInt (_state_delay self)
  | F__state_count => VInt (_state_count self)
  | F_mode => VMode (mode self)
  | F_demo_red_color => VAttr (demo_red_color self)
  | F_demo_green_color => VAttr (demo_green_color self)
  | F_demo_blue_color => VAttr (demo_blue_color self)
  | F_demo_red_delta => VAttr (demo_red_delta self)
  | F_demo_green_delta => VAttr (demo_green_delta self)
  | F_demo_blue_delta => VAttr (demo_blue_delta self)
  | F_current_percent => VFloat (current_percent self)
  | F__percent_delta => VFloat (_percent_delta self)
  | F_max_percent => VFloat (max_percent self)
  | F_min_percent => VFloat (min_percent self)
  | F_max_color_value => VAttr (max_color_value self)
  | F_min_color_value => VAttr (min_color_value self)
  | F_demo_red_value => VAttr (demo_red_value self)
  | F_demo_green_value => VAttr (demo_green_value self)
  | F_demo_blue_value => VAttr (demo_blue_value self)
  | F_demo_color_pair2 => VAttr (demo_color_pair2 self)
  | F_demo_pair2_delta => VAttr (demo_pair2_delta self)
  | F_demo_color_number => VAttr (demo_color_number self)
  | F_total_color_pairs => VAttr (total_color_pairs self)
  | F_demo_color_pair => VAttr (demo_color_pair self)
  end.

Definition field_eq_dec (f g : field) : {f = g} + {f <> g}.
Proof. decide equality. Defined.

Definition field_eqb (f g : field) : bool :=
  if field_eq_dec f g then true else false.

(** ** The contract of the bounded oscillator, in the specification's words

    [advance(range)]: [current += step]; if [current >= ceiling] or
    [current <= floor], flip [step = -step]. *)

Module Spec.
Section BoundedRange.
Variable T : Type.
Variable plus : T -> T -> T.
Variable negate : T -> T.
Variables geb leb : T -> T -> bool.

Record BoundedRange : Type := {
  current : T;
  floor : T;
  ceiling : T;
  step : T
}.

Definition flips (r : BoundedRange) : bool :=
  geb (plus (current r) (step r)) (ceiling r)
  || leb (plus (current r) (step r)) (floor r).

Definition advance (r : BoundedRange) : BoundedRange :=
  {| current := plus (current r) (step r);
     floor := floor r;
     ceiling := ceiling r;
     step := if flips r then negate (step r) else step r |}.
End BoundedRange.

Arguments current {T} _.
Arguments floor {T} _.
Arguments ceiling {T} _.
Arguments step {T} _.
Arguments Build_BoundedRange {T} _ _ _ _.

Definition advance_int : BoundedRange Z -> BoundedRange Z :=
  advance Z Z.add Z.opp Z.geb Z.leb.

Definition advance_float : BoundedRange Py.float -> BoundedRange Py.float :=
  advance Py.float fadd SFopp fge fle.
End Spec.

(** The ranges that the instance holds. *)
Definition temperature_range (self : DemoProcess) : Spec.BoundedRange Z :=
  {| Spec.current := current_temperature self;
     Spec.floor := min_temperature self;
     Spec.ceiling := max_temperature self;
     Spec.step := _temperature_delta self |}.

Definition percent_range (self : DemoProcess) : Spec.BoundedRange Py.float :=
  {| Spec.current := current_percent self;
     Spec.floor := min_percent self;
     Spec.ceiling := max_percent self;
     Spec.step := _percent_delta self |}.

(** The range of one colour channel, once its four attributes hold
    integers. *)
Definition channel_range (value delta : DemoProcess -> attr)
    (self : DemoProcess) : option (Spec.BoundedRange Z) :=
  match value self, delta self, min_color_value self, max_color_value self with
  | Some (PyInt v), Some (PyInt d), Some (PyInt lo), Some (PyInt hi) =>
      Some {| Spec.current := v; Spec.floor := lo;
              Spec.ceiling := hi; Spec.step := d |}
  | _, _, _, _ => None
  end.

Definition red_range : DemoProcess -> option (Spec.BoundedRange Z) :=
  channel_range demo_red_value demo_red_delta.
Definition green_range : DemoProcess -> option (Spec.BoundedRange Z) :=
  channel_range demo_green_value demo_green_delta.
Definition blue_range : DemoProcess -> option (Spec.BoundedRange Z) :=
  channel_range demo_blue_value demo_blue_delta.

(** The channel value that [_set_demo_color] hands to the colour
    service: [min(hi, max(v, lo))]. *)
Definition clamped (r : Spec.BoundedRange Z) : Z :=
  Z.min (Spec.ceiling r) (Z.max (Spec.current r) (Spec.floor r)).

(** Successive calls of [_update_state], one per drawn index. *)
Fixpoint update_state_calls (draws : list nat) : M unit :=
  match draws with
  | [] => ret tt
  | r :: rest => _update_state r ;; update_state_calls rest
  end.

(** A display with 256 colour numbers and 256 colour pairs. *)
Definition ui_256 : CursesUI :=
  {| total_color_numbers := 256; ui_total_color_pairs := 256 |}.

(** The binary64 values that the percent takes next to its ceiling,
    [0.9999999999999999] and [1.0999999999999999], and [0.5]. *)
Definition f_below_1 : Py.float := S754_finite false 9007199254740991 (-53).
Definition f_above_1 : Py.float := S754_finite false 4953959590107545 (-52).
Definition f0_5 : Py.float := S754_finite false 4503599627370496 (-53).

(** ** Vocabulary of the statements *)

(** [s'] differs from [s] at most in the attributes [fs]. *)
Definition only_changes (fs : list field) (s s' : DemoProcess) : Prop :=
  forall f, ~ In f fs -> field_value f s' = field_value f s.

(** A computation leaves the observation [f] of the instance as it was,
    whether it returns or raises. *)
Definition preserves {A B : Type} (f : DemoProcess -> B) (m : M A) : Prop :=
  forall s, f (state_of (m s)) = f s.

(** Two computations behave alike on every instance. *)
Definition agree {A : Type} (m m' : M A) : Prop := forall s, m s = m' s.

(** A computation raises on every instance. *)
Definition never_returns {A : Type} (m : M A) : Prop :=
  forall s, returned (m s) = false.

(** ** Vocabulary of the further properties *)

(** Where an integer oscillator lives between two edits of its limits:
    less than one step past either limit, and heading back whenever it
    is at or past one. *)
Definition in_band (r : Spec.BoundedRange Z) : Prop :=
  Spec.floor r - Z.abs (Spec.step r) < Spec.current r
    < Spec.ceiling r + Z.abs (Spec.step r) /\
  (Spec.ceiling r <= Spec.current r -> Spec.step r < 0) /\
  (Spec.current r <= Spec.floor r -> 0 < Spec.step r).

(** The names that [current_state_name] can take. *)
Definition state_names : list string :=
  map DemoStates_.name DemoStates_.members.

(** The attributes that only the write accessors and display setup
    assign, those that only the slow task advances, and those that only
    the fast task advances. *)
Definition limits (s : DemoProcess) :=
  (max_temperature s, min_temperature s, max_percent s, min_percent s,
   _state_delay s, max_color_value s, min_color_value s,
   demo_color_number s).

Definition slow_owned (s : DemoProcess) :=
  (current_temperature s, _temperature_delta s,
   current_state_name s, _state_count s).

Definition fast_owned (s : DemoProcess) :=
  (current_percent s, _percent_delta s).

(** An interleaving of the two tasks: the event loop runs one body at a
    time, a body of the fast task or a body of the slow task (with the
    index its [random.choice] would draw). *)
Inductive tick : Type :=
  | Fast
  | Slow (r : nat).

Fixpoint run_schedule (curses : Curses) (l : list tick) : M unit :=
  match l with
  | [] => ret tt
  | Fast :: rest => run_fast_body curses ;; run_schedule curses rest
  | Slow r :: rest => run_slow_body curses r ;; run_schedule curses rest
  end.

Definition is_fast (t : tick) : bool :=
  match t with Fast => true | Slow _ => false end.

Definition draw_ok (t : tick) : bool :=
  match t with Fast => true | Slow r => (r <? 4)%nat end.

(** The colour attributes as [_init_demo_color] seeds them, for the
    colour number [n]. *)
Definition seeded (n : Z) (s : DemoProcess) : Prop :=
  red_range s = Some {| Spec.current := 500; Spec.floor := 0;
                        Spec.ceiling := 999; Spec.step := 3 |} /\
  green_range s = Some {| Spec.current := 500; Spec.floor := 0;
                          Spec.ceiling := 999; Spec.step := 6 |} /\
  blue_range s = Some {| Spec.current := 500; Spec.floor := 0;
                         Spec.ceiling := 999; Spec.step := 9 |} /\
  demo_color_number s = Some (PyInt n).

(** *** The arrow-key response of [setup_demo_display] *)

(** The method of the Messages window that a key press calls. *)
Inductive scroll : Type :=
  | scroll_up
  | scroll_down
  | scroll_right
  | scroll_left.

Section ArrowKeys.

(** The key codes [curses.KEY_UP], [curses.KEY_DOWN], [curses.KEY_RIGHT]
    and [curses.KEY_LEFT]. *)
Variables KEY_UP KEY_DOWN KEY_RIGHT KEY_LEFT : Z.

Definition arrow_key_list : list Z :=
  [KEY_UP; KEY_DOWN; KEY_RIGHT; KEY_LEFT].

Definition _kr_scroll_msgwin (keyhit : Z) : option scroll :=
  if keyhit =? KEY_UP then Some scroll_up
  else if keyhit =? KEY_DOWN then Some scroll_down
  else if keyhit =? KEY_RIGHT then Some scroll_right
  else if keyhit =? KEY_LEFT then Some scroll_left
  else None.

End ArrowKeys.

(** * Properties *)

(** ** General facts about the model *)

(** The attribute family determines the instance. *)
Lemma field_value_ext (s s' : DemoProcess) :
  (forall f, field_value f s = field_value f s') -> s = s'.
Proof.
  intros H. destruct s, s'.
  pose proof (H F_current_temperature) as H1.
  pose proof (H F__temperature_delta) as H2.
  pose proof (H F_max_temperature) as H3.
  pose proof (H F_min_temperature) as H4.
  pose proof (H F_current_state_name) as H5.
  pose proof (H F__state_delay) as H6.
  pose proof (H F__state_count) as H7.
  pose proof (H F_mode) as H8.
  pose proof (H F_demo_red_color) as H9.
  pose proof (H F_demo_green_color) as H10.
  pose proof (H F_demo_blue_color) as H11.
  pose proof (H F_demo_red_delta) as H12.
  pose proof (H F_demo_green_delta) as H13.
  pose proof (H F_demo_blue_delta) as H14.
  pose proof (H F_current_percent) as H15.
  pose proof (H F__percent_delta) as H16.
  pose proof (H F_max_percent) as H17.
  pose proof (H F_min_percent) as H18.
  pose proof (H F_max_color_value) as H19.
  pose proof (H F_min_color_value) as H20.
  pose proof (H F_demo_red_value) as H21.
  pose proof (H F_demo_green_value) as H22.
  pose proof (H F_demo_blue_value) as H23.
  pose proof (H F_demo_color_pair2) as H24.
  pose proof (H F_demo_pair2_delta) as H25.
  pose proof (H F_demo_color_number) as H26.
  pose proof (H F_total_color_pairs) as H27.
  pose proof (H F_demo_color_pair) as H28.
  cbn in *. clear H.
  repeat match goal with
         | E : _ = _ |- _ => injection E as E; subst
         end.
  reflexivity.
Qed.

Lemma repeat_call_add (a b : nat) (m : M unit) (s : DemoProcess) :
  repeat_call (a + b) m s =
  match repeat_call a m s with
  | Ok _ s' => repeat_call b m s'
  | Raise e s' => Raise e s'
  end.
Proof.
  revert s. induction a as [| a IH]; intros s; cbn.
  - reflexivity.
  - unfold bind. destruct (m s) as [[] s1 | e s1]; [apply IH | reflexivity].
Qed.

Lemma bind_ok {A B : Type} (m : M A) (k : A -> M B) s a s' :
  m s = Ok a s' -> bind m k s = k a s'.
Proof. intros E. unfold bind. rewrite E. reflexivity. Qed.

Lemma bind_raise {A B : Type} (m : M A) (k : A -> M B) s e s' :
  m s = Raise e s' -> bind m k s = Raise e s'.
Proof. intros E. unfold bind. rewrite E. reflexivity. Qed.

(** Multiplying a binary64 value by [-1.0] negates it. *)
Lemma shr_low_bits (m : positive) (e : Z) :
  shr (Build_shr_record (Zpos (Pos.iter xO m 52)) false false) e 52
  = (Build_shr_record (Zpos m) false false, e + 52).
Proof. reflexivity. Qed.

Lemma digits2_shift (m : positive) :
  Zpos (digits2_pos (Pos.iter xO m 52)) = Zpos (digits2_pos m) + 52.
Proof. cbn [Pos.iter digits2_pos]. lia. Qed.

Lemma fmul_minus_one (x : Py.float) :
  valid_binary prec emax x = true ->
  fmul x (float_of_int (-1)) = SFopp x.
Proof.
  destruct x as [s | s | | s m e]; intros Hv;
    try (destruct s; reflexivity); try reflexivity.
  cbn in Hv. apply andb_prop in Hv as [Hc Hb].
  unfold canonical_mantissa in Hc. apply Z.eqb_eq in Hc. apply Z.leb_le in Hb.
  change (float_of_int (-1)) with (S754_finite true 4503599627370496 (-52)).
  unfold fmul, SFmul.
  replace (Pos.mul m 4503599627370496) with (Pos.iter xO m 52)
    by (rewrite Pos.mul_comm; reflexivity).
  unfold binary_round_aux.
  unfold shr_fexp at 1. unfold Zdigits2. rewrite digits2_shift.
  replace (Z.pos (digits2_pos m) + 52 + (e + -52))
    with (Z.pos (digits2_pos m) + e) by lia.
  rewrite Hc. replace (e - (e + -52)) with 52 by lia.
  unfold shr_record_of_loc. rewrite shr_low_bits.
  cbn [shr_m loc_of_shr_record round_nearest_even].
  unfold shr_fexp, Zdigits2.
  replace (e + -52 + 52) with e by lia.
  rewrite Hc, Z.sub_diag. cbn [shr shr_record_of_loc shr_m].
  replace (e <=? emax - prec) with true by (symmetry; apply Z.leb_le; exact Hb).
  rewrite xorb_true_r. reflexivity.
Qed.

(** ** Sanity checks of the run-time model on concrete values *)

Example literal_0_1 : fdiv (float_of_int 1) (float_of_int 10) = f0_1.
Proof. reflexivity. Qed.

Example literal_1_0 : float_of_int 1 = f1_0 /\ float_of_int (-1) = fm1_0.
Proof. split; reflexivity. Qed.

Example format_2f_samples :
  format_2f f0_0 = "0.00" /\ format_2f f0_1 = "0.10" /\
  format_2f fm1_0 = "-1.00" /\
  format_2f (fdiv (float_of_int 1) (float_of_int 8)) = "0.12" /\
  format_2f (fdiv (float_of_int 3) (float_of_int 8)) = "0.38" /\
  format_2f (fdiv (float_of_int (-1)) (float_of_int 1000)) = "-0.00" /\
  format_2f (float_of_int 1234) = "1234.00".
Proof. repeat split; vm_compute; reflexivity. Qed.

Example percent_neighbours :
  SFpred prec emax f1_0 = f_below_1 /\
  Zpos 9007199254740991 = 2 ^ 53 - 1 /\
  fle f_below_1 f1_0 = true /\ fge f_below_1 f1_0 = false /\
  format_2f f_below_1 = "1.00" /\ format_2f f_above_1 = "1.10".
Proof. repeat split; vm_compute; reflexivity. Qed.

Example fresh_texts :
  get_demo_temperature_text __init__ = Ok "Current Temp: 20" __init__ /\
  get_demo_percent_text __init__ = Ok "Percent: 0.00" __init__ /\
  get_demo_state_text __init__ = Ok "Current State: Disconnected" __init__ /\
  get_demo_mode_text __init__ = Ok "Current Mode: Disabled" __init__ /\
  get_demo_mode_value __init__ = Ok 22 __init__.
Proof. repeat split; vm_compute; reflexivity. Qed.

(** ** Proof automation *)

Ltac frame_by_cases :=
  let f := fresh "f" in
  let Hf := fresh "Hf" in
  intros f Hf; destruct f; try reflexivity;
  exfalso; apply Hf; cbn; tauto.

(** Unfold the monad, the attribute reads and the attribute writes. *)
Ltac run_model :=
  cbv beta iota delta
    [bind read assign ret raise lift getattr state_of
     current_temperature _temperature_delta max_temperature min_temperature
     current_state_name _state_delay _state_count mode
     demo_red_color demo_green_color demo_blue_color
     demo_red_delta demo_green_delta demo_blue_delta
     current_percent _percent_delta max_percent min_percent
     max_color_value min_color_value
     demo_red_value demo_green_value demo_blue_value
     demo_color_pair2 demo_pair2_delta demo_color_number
     total_color_pairs demo_color_pair
     set_current_temperature set__temperature_delta
     set_max_temperature set_min_temperature
     set_current_state_name set__state_count set_mode
     set_demo_red_delta set_demo_green_delta set_demo_blue_delta
     set_current_percent set__percent_delta set_max_percent set_min_percent
     set_max_color_value set_min_color_value
     set_demo_red_value set_demo_green_value set_demo_blue_value
     set_demo_color_pair2 set_demo_pair2_delta set_demo_color_number
     set_total_color_pairs set_demo_color_pair].

(** ** The bounded oscillators against the contract *)

Lemma _update_temperature_advance (s : DemoProcess) :
  exists s',
    _update_temperature s = Ok tt s' /\
    temperature_range s' = Spec.advance_int (temperature_range s) /\
    only_changes [F_current_temperature; F__temperature_delta] s s'.
Proof.
  destruct s as [t d hi lo nm delay cnt md rc gc bc rd gd bd p pd phi plo
                 cmax cmin rv gv bv cp2 p2d cn tcp cp].
  unfold _update_temperature, temperature_range, Spec.advance_int,
    Spec.advance, Spec.flips.
  run_model. cbn [Spec.current Spec.floor Spec.ceiling Spec.step].
  destruct (t + d >=? hi); cbn [orb].
  - eexists. split; [reflexivity |]. split; [| frame_by_cases].
    f_equal. lia.
  - destruct (t + d <=? lo).
    + eexists. split; [reflexivity |]. split; [| frame_by_cases].
      f_equal. lia.
    + eexists. split; [reflexivity |]. split; [| frame_by_cases].
      reflexivity.
Qed.

Lemma _update_percent_advance (s : DemoProcess) :
  valid_binary prec emax (_percent_delta s) = true ->
  exists s',
    _update_percent s = Ok tt s' /\
    percent_range s' = Spec.advance_float (percent_range s) /\
    only_changes [F_current_percent; F__percent_delta] s s'.
Proof.
  destruct s as [t d hi lo nm delay cnt md rc gc bc rd gd bd p pd phi plo
                 cmax cmin rv gv bv cp2 p2d cn tcp cp].
  unfold _update_percent, percent_range, Spec.advance_float,
    Spec.advance, Spec.flips.
  run_model. cbn [Spec.current Spec.floor Spec.ceiling Spec.step].
  intros Hv.
  destruct (fge (fadd p pd) phi); cbn [orb].
  - run_model. rewrite (fmul_minus_one _ Hv).
    eexists. split; [reflexivity |]. split; [| frame_by_cases].
    reflexivity.
  - destruct (fle (fadd p pd) plo).
    + run_model. rewrite (fmul_minus_one _ Hv).
      eexists. split; [reflexivity |]. split; [| frame_by_cases].
      reflexivity.
    + eexists. split; [reflexivity |]. split; [| frame_by_cases].
      reflexivity.
Qed.

Lemma max_int (a b : Z) : Py.max (PyInt a) (PyInt b) = inr (PyInt (Z.max a b)).
Proof.
  unfold Py.max, gt. rewrite Z.gtb_ltb.
  destruct (Z.ltb_spec a b) as [H | H]; do 2 f_equal; lia.
Qed.

Lemma min_int (a b : Z) : Py.min (PyInt a) (PyInt b) = inr (PyInt (Z.min a b)).
Proof.
  unfold Py.min, lt.
  destruct (Z.ltb_spec b a) as [H | H]; do 2 f_equal; lia.
Qed.

Lemma _update_color_advance (curses : Curses) (s : DemoProcess)
    (r g b : Spec.BoundedRange Z) (n : Z) :
  red_range s = Some r ->
  green_range s = Some g ->
  blue_range s = Some b ->
  demo_color_number s = Some (PyInt n) ->
  exists s',
    _update_color curses s =
      (if init_color curses n
            (clamped (Spec.advance_int r))
            (clamped (Spec.advance_int g))
            (clamped (Spec.advance_int b))
       then Ok tt s' else Raise CursesError s') /\
    red_range s' = Some (Spec.advance_int r) /\
    green_range s' = Some (Spec.advance_int g) /\
    blue_range s' = Some (Spec.advance_int b) /\
    only_changes [F_demo_red_value; F_demo_red_delta;
                  F_demo_green_value; F_demo_green_delta;
                  F_demo_blue_value; F_demo_blue_delta] s s'.
Proof.
  destruct s as [t d hi lo nm delay cnt md rc gc bc rd gd bd p pd phi plo
                 cmax cmin rv gv bv cp2 p2d cn tcp cp].
  unfold red_range, green_range, blue_range, channel_range.
  cbv beta iota delta
    [demo_red_value demo_green_value demo_blue_value
     demo_red_delta demo_green_delta demo_blue_delta
     max_color_value min_color_value demo_color_number].
  destruct rv as [[| rv] |]; try discriminate;
  destruct rd as [[| rd] |]; try discriminate;
  destruct cmin as [[| cmin] |]; try discriminate;
  destruct cmax as [[| cmax] |]; try discriminate.
  destruct gv as [[| gv] |]; try discriminate;
  destruct gd as [[| gd] |]; try discriminate.
  destruct bv as [[| bv] |]; try discriminate;
  destruct bd as [[| bd] |]; try discriminate.
  intros Hr Hg Hb Hn.
  injection Hr as <-. injection Hg as <-. injection Hb as <-.
  subst cn.
  unfold _update_color, _set_demo_color, curses_init_color, clamped,
    Spec.advance_int, Spec.advance, Spec.flips.
  cbn [Spec.current Spec.floor Spec.ceiling Spec.step].
  destruct (rv + rd >=? cmax) eqn:R1;
    [| destruct (rv + rd <=? cmin) eqn:R2];
  (destruct (gv + gd >=? cmax) eqn:G1;
    [| destruct (gv + gd <=? cmin) eqn:G2]);
  (destruct (bv + bd >=? cmax) eqn:B1;
    [| destruct (bv + bd <=? cmin) eqn:B2]);
  cbn [orb];
  run_model;
  cbv beta iota delta [add ge le mul as_int];
  rewrite ?R1, ?R2, ?G1, ?G2, ?B1, ?B2;
  run_model;
  cbv beta iota delta [add ge le mul as_int];
  rewrite ?R1, ?R2, ?G1, ?G2, ?B1, ?B2;
  run_model;
  cbv beta iota delta [add ge le mul as_int];
  rewrite ?R1, ?R2, ?G1, ?G2, ?B1, ?B2;
  run_model;
  do 3 (rewrite max_int; run_model; rewrite min_int; run_model);
  cbv beta iota delta [as_int];
  rewrite <- ?Z.opp_eq_mul_m1;
  (destruct (init_color curses n _ _ _);
   eexists; (split; [reflexivity |]);
   repeat (split; [reflexivity |]); frame_by_cases).
Qed.

(** The same over any number of successive calls. *)
Lemma temperature_sequence (n : nat) (s : DemoProcess) :
  exists s',
    repeat_call n _update_temperature s = Ok tt s' /\
    temperature_range s' = Nat.iter n Spec.advance_int (temperature_range s).
Proof.
  revert s. induction n as [| n IH]; intros s.
  - exists s. split; reflexivity.
  - destruct (_update_temperature_advance s) as (s1 & E1 & R1 & _).
    destruct (IH s1) as (s' & E & R).
    exists s'. split.
    + cbn [repeat_call]. rewrite (bind_ok _ _ _ _ _ E1). exact E.
    + rewrite R, R1, Nat.iter_succ_r. reflexivity.
Qed.

Lemma valid_binary_opp (x : Py.float) :
  valid_binary prec emax (SFopp x) = valid_binary prec emax x.
Proof. destruct x; reflexivity. Qed.

Lemma percent_sequence (n : nat) (s : DemoProcess) :
  valid_binary prec emax (_percent_delta s) = true ->
  exists s',
    repeat_call n _update_percent s = Ok tt s' /\
    percent_range s' = Nat.iter n Spec.advance_float (percent_range s).
Proof.
  revert s. induction n as [| n IH]; intros s Hv.
  - exists s. split; reflexivity.
  - destruct (_update_percent_advance s Hv) as (s1 & E1 & R1 & _).
    assert (Hv1 : valid_binary prec emax (_percent_delta s1) = true).
    { change (_percent_delta s1) with (Spec.step (percent_range s1)).
      rewrite R1. cbn [Spec.advance_float Spec.advance Spec.step].
      unfold Spec.advance_float, Spec.advance. cbn [Spec.step].
      destruct (Spec.flips _ _ _ _ _);
        [rewrite valid_binary_opp |]; exact Hv. }
    destruct (IH s1 Hv1) as (s' & E & R).
    exists s'. split.
    + cbn [repeat_call]. rewrite (bind_ok _ _ _ _ _ E1). exact E.
    + rewrite R, R1, Nat.iter_succ_r. reflexivity.
Qed.

Lemma color_sequence (curses : Curses) (n : nat) (s : DemoProcess)
    (r g b : Spec.BoundedRange Z) (c : Z) :
  red_range s = Some r ->
  green_range s = Some g ->
  blue_range s = Some b ->
  demo_color_number s = Some (PyInt c) ->
  let s' := Nat.iter n (fun s0 => state_of (_update_color curses s0)) s in
  red_range s' = Some (Nat.iter n Spec.advance_int r) /\
  green_range s' = Some (Nat.iter n Spec.advance_int g) /\
  blue_range s' = Some (Nat.iter n Spec.advance_int b).
Proof.
  revert s r g b. induction n as [| n IH]; intros s r g b Hr Hg Hb Hc.
  - cbn. auto.
  - cbn zeta. rewrite !Nat.iter_succ_r.
    destruct (_update_color_advance curses s r g b c Hr Hg Hb Hc)
      as (s1 & E1 & R1 & G1 & B1 & F1).
    assert (S1 : state_of (_update_color curses s) = s1).
    { rewrite E1. destruct (init_color curses _ _ _ _); reflexivity. }
    rewrite S1. apply IH; try assumption.
    assert (Hn : field_value F_demo_color_number s1
                 = field_value F_demo_color_number s).
    { apply F1. cbn. intuition discriminate. }
    cbn in Hn. injection Hn as Hn. rewrite Hn. exact Hc.
Qed.

Lemma advance_int_flips (r : Spec.BoundedRange Z) :
  Spec.step r <> 0 ->
  (Spec.step (Spec.advance_int r) = - Spec.step r <->
   (Spec.current r + Spec.step r >= Spec.ceiling r \/
    Spec.current r + Spec.step r <= Spec.floor r)) /\
  (Spec.step (Spec.advance_int r) = Spec.step r <->
   ~ (Spec.current r + Spec.step r >= Spec.ceiling r \/
      Spec.current r + Spec.step r <= Spec.floor r)).
Proof.
  intros Hstep.
  unfold Spec.advance_int, Spec.advance, Spec.flips.
  cbn [Spec.step].
  destruct (Z.geb_spec (Spec.current r + Spec.step r) (Spec.ceiling r));
    destruct (Z.leb_spec (Spec.current r + Spec.step r) (Spec.floor r));
    cbn [orb]; split; split; intros; lia.
Qed.

Lemma advance_int_band (r : Spec.BoundedRange Z) :
  Spec.floor r < Spec.current r < Spec.ceiling r ->
  Spec.floor r - Z.abs (Spec.step r)
    < Spec.current (Spec.advance_int r)
    < Spec.ceiling r + Z.abs (Spec.step r).
Proof. intros H. cbn. lia. Qed.

(** C5. Each bounded-range update follows the contract [advance]: the
    call adds the step to the current value without clamping, and the
    step is negated exactly when the new current value is at or past the
    ceiling or at or below the floor, and is kept otherwise; nothing
    else in the instance changes. This holds of the temperature, of the
    percent (in binary64 arithmetic, for a step that is a binary64
    value) and of each of the three colour channels once their
    attributes hold integers; the colour update then hands the clamped
    channels to the colour service and raises only if that call does.
    Over any number of successive calls the range is the contract
    iterated that many times. A value strictly inside its limits lands
    less than the magnitude of the step past a limit. *)
Theorem bounded_ranges_advance :
  (forall s, exists s',
     _update_temperature s = Ok tt s' /\
     temperature_range s' = Spec.advance_int (temperature_range s) /\
     only_changes [F_current_temperature; F__temperature_delta] s s') /\
  (forall s,
     valid_binary prec emax (_percent_delta s) = true ->
     exists s',
       _update_percent s = Ok tt s' /\
       percent_range s' = Spec.advance_float (percent_range s) /\
       only_changes [F_current_percent; F__percent_delta] s s') /\
  (forall curses s r g b n,
     red_range s = Some r ->
     green_range s = Some g ->
     blue_range s = Some b ->
     demo_color_number s = Some (PyInt n) ->
     exists s',
       _update_color curses s =
         (if init_color curses n
               (clamped (Spec.advance_int r))
               (clamped (Spec.advance_int g))
               (clamped (Spec.advance_int b))
          then Ok tt s' else Raise CursesError s') /\
       red_range s' = Some (Spec.advance_int r) /\
       green_range s' = Some (Spec.advance_int g) /\
       blue_range s' = Some (Spec.advance_int b) /\
       only_changes [F_demo_red_value; F_demo_red_delta;
                     F_demo_green_value; F_demo_green_delta;
                     F_demo_blue_value; F_demo_blue_delta] s s') /\
  (forall n s, exists s',
     repeat_call n _update_temperature s = Ok tt s' /\
     temperature_range s'
       = Nat.iter n Spec.advance_int (temperature_range s)) /\
  (forall n s,
     valid_binary prec emax (_percent_delta s) = true ->
     exists s',
       repeat_call n _update_percent s = Ok tt s' /\
       percent_range s'
         = Nat.iter n Spec.advance_float (percent_range s)) /\
  (forall curses n s r g b c,
     red_range s = Some r ->
     green_range s = Some g ->
     blue_range s = Some b ->
     demo_color_number s = Some (PyInt c) ->
     let s' := Nat.iter n (fun s0 => state_of (_update_color curses s0)) s in
     red_range s' = Some (Nat.iter n Spec.advance_int r) /\
     green_range s' = Some (Nat.iter n Spec.advance_int g) /\
     blue_range s' = Some (Nat.iter n Spec.advance_int b)) /\
  (forall r : Spec.BoundedRange Z,
     Spec.step r <> 0 ->
     (Spec.step (Spec.advance_int r) = - Spec.step r <->
      (Spec.current r + Spec.step r >= Spec.ceiling r \/
       Spec.current r + Spec.step r <= Spec.floor r)) /\
     (Spec.step (Spec.advance_int r) = Spec.step r <->
      ~ (Spec.current r + Spec.step r >= Spec.ceiling r \/
         Spec.current r + Spec.step r <= Spec.floor r))) /\
  (forall r : Spec.BoundedRange Z,
     Spec.floor r < Spec.current r < Spec.ceiling r ->
     Spec.floor r - Z.abs (Spec.step r)
       < Spec.current (Spec.advance_int r)
       < Spec.ceiling r + Z.abs (Spec.step r)).
Proof.
  split; [exact _update_temperature_advance |].
  split; [exact _update_percent_advance |].
  split; [exact _update_color_advance |].
  split; [exact temperature_sequence |].
  split; [exact percent_sequence |].
  split; [exact color_sequence |].
  split; [exact advance_int_flips | exact advance_int_band].
Qed.

(** The blue channel does overshoot: its 56th update from the seeds
    reaches 1004, past the ceiling 999; that call negates the step, the
    colour service receives 999, and the next update is back at 995. *)
Example blue_overshoots :
  let s0 := state_of (_init_demo_color accepting ui_256 __init__) in
  let s56 := state_of (repeat_call 56 (_update_color accepting) s0) in
  demo_blue_value s56 = Some (PyInt 1004) /\
  demo_blue_delta s56 = Some (PyInt (-9)) /\
  option_map clamped (blue_range s56) = Some 999 /\
  demo_blue_value (state_of (_update_color accepting s56))
    = Some (PyInt 995).
Proof. vm_compute. repeat split; reflexivity. Qed.

Lemma bounded_ranges_advance_witness :
  let s0 := state_of (_init_demo_color accepting ui_256 __init__) in
  let red := {| Spec.current := 500; Spec.floor := 0;
                Spec.ceiling := 999; Spec.step := 3 |} in
  let green := {| Spec.current := 500; Spec.floor := 0;
                  Spec.ceiling := 999; Spec.step := 6 |} in
  let blue := {| Spec.current := 500; Spec.floor := 0;
                 Spec.ceiling := 999; Spec.step := 9 |} in
  (exists s',
     _update_percent __init__ = Ok tt s' /\
     percent_range s' = Spec.advance_float (percent_range __init__) /\
     only_changes [F_current_percent; F__percent_delta] __init__ s') /\
  (exists s',
     _update_color accepting s0 = Ok tt s' /\
     blue_range s' = Some (Spec.advance_int blue)) /\
  (exists s',
     repeat_call 11 _update_percent __init__ = Ok tt s' /\
     percent_range s'
       = Nat.iter 11 Spec.advance_float (percent_range __init__)) /\
  blue_range
    (Nat.iter 56 (fun s => state_of (_update_color accepting s)) s0)
    = Some (Nat.iter 56 Spec.advance_int blue) /\
  Spec.step (Spec.advance_int blue) = 9 /\
  0 - Z.abs 9 < Spec.current (Spec.advance_int blue) < 999 + Z.abs 9.
Proof.
  intros s0 red green blue.
  destruct bounded_ranges_advance
    as (_ & Hp & Hc & _ & Hps & Hcs & Hf & Hb).
  split; [apply Hp; reflexivity |].
  split.
  { destruct (Hc accepting s0 red green blue 255
                eq_refl eq_refl eq_refl eq_refl)
      as (s' & E & _ & _ & Hblue & _).
    exists s'. split; [exact E | exact Hblue]. }
  split; [apply Hps; reflexivity |].
  split.
  { apply (Hcs accepting 56%nat s0 red green blue 255
             eq_refl eq_refl eq_refl eq_refl). }
  split.
  - apply (proj2 (Hf blue ltac:(discriminate))). cbn. lia.
  - apply (Hb blue). cbn. lia.
Defined.

(** ** The temperature oscillator *)

Lemma temperature_cycle :
  repeat_call 40 _update_temperature __init__ = Ok tt __init__.
Proof. vm_compute. reflexivity. Qed.

Lemma temperature_cycles (q r : nat) :
  repeat_call (40 * q + r) _update_temperature __init__ =
  repeat_call r _update_temperature __init__.
Proof.
  induction q as [| q IH].
  - reflexivity.
  - replace (40 * S q + r)%nat with (40 + (40 * q + r))%nat by lia.
    rewrite repeat_call_add, temperature_cycle. exact IH.
Qed.

Lemma temperature_no_early_return (r : nat) :
  (r < 40)%nat ->
  repeat_call r _update_temperature __init__ = Ok tt __init__ -> r = 0%nat.
Proof.
  intros Hr.
  do 40 (destruct r as [| r];
         [ try reflexivity; vm_compute; intros E; discriminate E | ]).
  lia.
Qed.

(** C4. From the default temperature (current 20, floor 10, ceiling 30,
    step +1): after exactly 10 calls of [_update_temperature] current is
    30 and the step is -1; after 20 further calls current is 10 and the
    step is +1; the instance is back in its initial state after [n]
    calls exactly when [n] is a multiple of 40, so the period is 40. *)
Theorem temperature_period_40 :
  (exists s10,
     repeat_call 10 _update_temperature __init__ = Ok tt s10 /\
     current_temperature s10 = 30 /\ _temperature_delta s10 = -1 /\
     exists s30,
       repeat_call 20 _update_temperature s10 = Ok tt s30 /\
       current_temperature s30 = 10 /\ _temperature_delta s30 = 1) /\
  (forall n : nat,
     repeat_call n _update_temperature __init__ = Ok tt __init__ <->
     (n mod 40 = 0)%nat).
Proof.
  split.
  - eexists. split; [vm_compute; reflexivity |].
    split; [reflexivity |]. split; [reflexivity |].
    eexists. split; [vm_compute; reflexivity |].
    split; reflexivity.
  - intros n.
    rewrite (Nat.div_mod_eq n 40) at 1.
    rewrite temperature_cycles.
    split.
    + apply temperature_no_early_return. apply Nat.mod_upper_bound. discriminate.
    + intros ->. reflexivity.
Qed.

(** ** The percent oscillator *)

(** C2, as stated, fails: after 10 calls of [_update_percent] from the
    default state, current does not compare equal to 1.0 and the step is
    not -0.1. *)
Lemma percent_not_flipped_after_10 :
  ~ (feq (current_percent
            (state_of (repeat_call 10 _update_percent __init__))) f1_0 = true
     /\ _percent_delta (state_of (repeat_call 10 _update_percent __init__))
        = SFopp f0_1).
Proof. vm_compute. intros [E _]. discriminate E. Qed.

(** C2, amended. From the default percent state, the 10 binary64
    additions of 0.1 give 0.9999999999999999, which is below the ceiling
    1.0, so the step is still +0.1 after 10 calls; the 11th call reaches
    1.0999999999999999, which is at least 1.0, and flips the step to
    -0.1. The comparison does hold at exact equality: from current 0.5
    with step 0.5 one call gives exactly 1.0 and flips the step. *)
Theorem percent_flips_on_call_11 :
  (exists s10,
     repeat_call 10 _update_percent __init__ = Ok tt s10 /\
     current_percent s10 = f_below_1 /\
     fge (current_percent s10) (max_percent s10) = false /\
     _percent_delta s10 = f0_1 /\
     exists s11,
       _update_percent s10 = Ok tt s11 /\
       current_percent s11 = f_above_1 /\
       fge (current_percent s11) (max_percent s11) = true /\
       _percent_delta s11 = SFopp f0_1) /\
  (exists s1,
     _update_percent
       (set__percent_delta f0_5 (set_current_percent f0_5 __init__))
     = Ok tt s1 /\
     current_percent s1 = f1_0 /\
     feq (current_percent s1) (max_percent s1) = true /\
     _percent_delta s1 = SFopp f0_5).
Proof.
  split.
  - eexists. split; [vm_compute; reflexivity |].
    repeat (split; [reflexivity |]).
    eexists. split; [vm_compute; reflexivity |].
    repeat split; reflexivity.
  - eexists. split; [vm_compute; reflexivity |].
    repeat split; reflexivity.
Qed.

(** ** The discrete state *)

Lemma _update_state_waits (r : nat) (s : DemoProcess) :
  0 < _state_count s - 1 ->
  exists s',
    _update_state r s = Ok tt s' /\
    _state_count s' = _state_count s - 1 /\
    current_state_name s' = current_state_name s /\
    only_changes [F__state_count] s s'.
Proof.
  destruct s as [t d hi lo nm delay cnt md rc gc bc rd gd bd p pd phi plo
                 cmax cmin rv gv bv cp2 p2d cn tcp cp].
  unfold _update_state. run_model. intros H.
  destruct (Z.leb_spec (cnt - 1) 0) as [H' | _]; [lia |].
  eexists. split; [reflexivity |].
  repeat (split; [reflexivity |]). frame_by_cases.
Qed.

Lemma _update_state_reselects (r : nat) (s : DemoProcess) (d : DemoStates) :
  _state_count s - 1 <= 0 ->
  nth_error DemoStates_.members r = Some d ->
  exists s',
    _update_state r s = Ok tt s' /\
    _state_count s' = _state_delay s /\
    current_state_name s' = DemoStates_.name d /\
    only_changes [F__state_count; F_current_state_name] s s'.
Proof.
  destruct s as [t dl hi lo nm delay cnt md rc gc bc rd gd bd p pd phi plo
                 cmax cmin rv gv bv cp2 p2d cn tcp cp].
  unfold _update_state. run_model. intros H Hr.
  destruct (Z.leb_spec (cnt - 1) 0) as [_ | H']; [| lia].
  unfold choice. rewrite Hr. run_model.
  eexists. split; [reflexivity |].
  repeat (split; [reflexivity |]). frame_by_cases.
Qed.

Lemma members_indexed :
  List.length DemoStates_.members = 4%nat /\
  NoDup DemoStates_.members /\
  (forall d, exists r, (r < 4)%nat /\ nth_error DemoStates_.members r = Some d) /\
  (forall r, (r < 4)%nat ->
     exists d, nth_error DemoStates_.members r = Some d).
Proof.
  split; [reflexivity |]. split.
  - repeat constructor; cbn; intuition discriminate.
  - split.
    + intros []; [exists 0%nat | exists 1%nat | exists 2%nat | exists 3%nat];
        (split; [lia | reflexivity]).
    + intros r Hr. do 4 (destruct r as [| r]; [eexists; reflexivity |]). lia.
Qed.

(** C6. Every call of [_update_state] decrements the counter. When the
    decremented counter is positive the call changes nothing else; when
    it is zero or less the same call resets the counter to the period
    and stores the name of the member of [DemoStates] that
    [random.choice] draws, which may be any of the four members (each
    sits at exactly one index of the list drawn from), the previous one
    included. With period 5 and a freshly reset counter, calls 1 to 4
    leave the state name as it was (counter 4, 3, 2, 1) and call 5
    reselects and leaves the counter at 5. *)
Theorem discrete_state_tick :
  (forall r s,
     0 < _state_count s - 1 ->
     exists s',
       _update_state r s = Ok tt s' /\
       _state_count s' = _state_count s - 1 /\
       current_state_name s' = current_state_name s /\
       only_changes [F__state_count] s s') /\
  (forall r s d,
     _state_count s - 1 <= 0 ->
     nth_error DemoStates_.members r = Some d ->
     exists s',
       _update_state r s = Ok tt s' /\
       _state_count s' = _state_delay s /\
       current_state_name s' = DemoStates_.name d /\
       only_changes [F__state_count; F_current_state_name] s s') /\
  (List.length DemoStates_.members = 4%nat /\
   NoDup DemoStates_.members /\
   (forall d, exists r,
      (r < 4)%nat /\ nth_error DemoStates_.members r = Some d) /\
   (forall r, (r < 4)%nat ->
      exists d, nth_error DemoStates_.members r = Some d)) /\
  (forall s r1 r2 r3 r4 r5 d,
     _state_delay s = 5 ->
     _state_count s = 5 ->
     nth_error DemoStates_.members r5 = Some d ->
     exists s1 s2 s3 s4 s5,
       _update_state r1 s = Ok tt s1 /\
       _update_state r2 s1 = Ok tt s2 /\
       _update_state r3 s2 = Ok tt s3 /\
       _update_state r4 s3 = Ok tt s4 /\
       _update_state r5 s4 = Ok tt s5 /\
       current_state_name s1 = current_state_name s /\
       current_state_name s2 = current_state_name s /\
       current_state_name s3 = current_state_name s /\
       current_state_name s4 = current_state_name s /\
       _state_count s1 = 4 /\ _state_count s2 = 3 /\
       _state_count s3 = 2 /\ _state_count s4 = 1 /\
       current_state_name s5 = DemoStates_.name d /\
       _state_count s5 = 5 /\
       update_state_calls [r1; r2; r3; r4; r5] s = Ok tt s5).
Proof.
  split; [exact _update_state_waits |].
  split; [exact _update_state_reselects |].
  split; [exact members_indexed |].
  intros s r1 r2 r3 r4 r5 d.
  destruct s as [t dl hi lo nm delay cnt md rc gc bc rd gd bd p pd phi plo
                 cmax cmin rv gv bv cp2 p2d cn tcp cp].
  cbn [_state_delay _state_count]. intros -> -> Hr.
  unfold update_state_calls, _update_state, choice. run_model.
  cbn [Z.sub Z.add Z.opp Z.pos_sub Z.leb Z.compare Pos.pred_double
       Z.succ_double Z.pred_double Z.double].
  rewrite Hr. run_model.
  do 5 eexists. repeat (split; [reflexivity |]). reflexivity.
Qed.

Lemma discrete_state_tick_witness :
  (exists s',
     _update_state 2 __init__ = Ok tt s' /\
     _state_count s' = 4 /\
     current_state_name s' = "Disconnected") /\
  (exists s',
     _update_state 2 (set__state_count 1 __init__) = Ok tt s' /\
     _state_count s' = 5 /\
     current_state_name s' = "Cycling") /\
  (exists d, nth_error DemoStates_.members 3 = Some d) /\
  (exists s5,
     update_state_calls [0; 1; 2; 3; 0]%nat __init__ = Ok tt s5 /\
     current_state_name s5 = "Disconnected" /\ _state_count s5 = 5).
Proof.
  destruct discrete_state_tick as (Hw & Hr & (_ & _ & _ & Hm) & Hseq).
  split.
  - destruct (Hw 2%nat __init__) as (s' & E & Hc & Hn & _);
      [reflexivity |].
    exists s'. repeat split; assumption.
  - split.
    + destruct (Hr 2%nat (set__state_count 1 __init__) Cycling)
        as (s' & E & Hc & Hn & _); [discriminate | reflexivity |].
      exists s'. repeat split; assumption.
    + split; [apply Hm; lia |].
      destruct (Hseq __init__ 0%nat 1%nat 2%nat 3%nat 0%nat Disconnected
                  eq_refl eq_refl eq_refl)
        as (s1 & s2 & s3 & s4 & s5 & H).
      exists s5. repeat split; apply H.
Defined.

(** ** Colour attributes before and after display setup *)

(** C10. After construction alone the colour attributes that [__init__]
    names ([demo_*_color], [demo_*_delta]) hold [None] and the channel
    values [demo_*_value] are not attributes of the instance yet; the
    seeds 500 and the steps 3, 6, 9 are assigned by [_init_demo_color],
    whatever the colour service answers; on the freshly constructed
    instance [_update_color], and hence one body of the fast task,
    raises on its first attribute read and assigns nothing. *)
Theorem colors_need_init_demo_color :
  (demo_red_color __init__ = Some PyNone /\
   demo_green_color __init__ = Some PyNone /\
   demo_blue_color __init__ = Some PyNone /\
   demo_red_delta __init__ = Some PyNone /\
   demo_green_delta __init__ = Some PyNone /\
   demo_blue_delta __init__ = Some PyNone /\
   demo_red_value __init__ = None /\
   demo_green_value __init__ = None /\
   demo_blue_value __init__ = None) /\
  (forall curses demo_ui,
     let s := state_of (_init_demo_color curses demo_ui __init__) in
     demo_red_value s = Some (PyInt 500) /\
     demo_green_value s = Some (PyInt 500) /\
     demo_blue_value s = Some (PyInt 500) /\
     demo_red_delta s = Some (PyInt 3) /\
     demo_green_delta s = Some (PyInt 6) /\
     demo_blue_delta s = Some (PyInt 9)) /\
  (forall curses,
     _update_color curses __init__ = Raise AttributeError __init__) /\
  (forall curses,
     run_fast_body curses __init__ = Raise AttributeError __init__).
Proof.
  split; [repeat split; reflexivity |].
  split; [| split; intros curses; vm_compute; reflexivity].
  intros [ic ip] demo_ui s. subst s.
  vm_compute.
  destruct (ic _ _ _ _); [destruct (ip _ _ _) |]; repeat split; reflexivity.
Qed.

(** ** A colour service that raises *)

Lemma never_returns_bind {A B : Type} (m : M A) (k : A -> M B) :
  (forall a, never_returns (k a)) -> never_returns (bind m k).
Proof.
  intros Hk s. unfold bind. destruct (m s) as [a s1 | e s1];
    [apply Hk | reflexivity].
Qed.

Lemma never_returns_first {A B : Type} (m : M A) (k : A -> M B) :
  never_returns m -> never_returns (bind m k).
Proof.
  intros Hm s. unfold bind. specialize (Hm s).
  destruct (m s) as [a s1 | e s1]; [discriminate Hm | reflexivity].
Qed.

Lemma _update_color_rejected : never_returns (_update_color rejecting).
Proof.
  unfold _update_color, _set_demo_color, curses_init_color.
  repeat (apply never_returns_bind; intros ?).
  intros s. reflexivity.
Qed.

(** C1 does not hold of the code: [_set_demo_color] calls
    [curses.init_color] without a handler, so when the colour service
    raises, the error leaves [_update_color] and the body of the fast
    task. On a terminal that rejects colour definitions no iteration of
    the fast loop returns, from any instance; from an instance that
    display setup has initialised the first iteration raises
    [curses.error] after the three channels have advanced and before
    [_update_percent] runs. *)
Theorem color_error_ends_fast_task :
  (forall ticks s, returned (run_fast rejecting (S ticks) s) = false) /\
  (forall demo_ui ticks,
     let s := state_of (_init_demo_color accepting demo_ui __init__) in
     exists s',
       run_fast_body rejecting s = Raise CursesError s' /\
       run_fast rejecting (S ticks) s = Raise CursesError s' /\
       demo_red_value s' = Some (PyInt 503) /\
       demo_green_value s' = Some (PyInt 506) /\
       demo_blue_value s' = Some (PyInt 509) /\
       current_percent s' = current_percent s).
Proof.
  split.
  - intros ticks. cbn [run_fast]. apply never_returns_first.
    unfold run_fast_body. apply never_returns_first.
    exact _update_color_rejected.
  - intros [numbers pairs] ticks s.
    assert (E : exists s',
               run_fast_body rejecting s = Raise CursesError s' /\
               demo_red_value s' = Some (PyInt 503) /\
               demo_green_value s' = Some (PyInt 506) /\
               demo_blue_value s' = Some (PyInt 509) /\
               current_percent s' = current_percent s).
    { eexists. split; [vm_compute; reflexivity |]. repeat split; reflexivity. }
    destruct E as (s' & E & Hr & Hg & Hb & Hp).
    exists s'. split; [exact E |].
    split; [| repeat split; assumption].
    cbn [run_fast]. apply bind_raise. exact E.
Qed.

(** ** The fast task from construction *)

Lemma agree_refl {A : Type} (m : M A) : agree m m.
Proof. intros s. reflexivity. Qed.

Lemma agree_bind {A B : Type} (m m' : M A) (k k' : A -> M B) :
  agree m m' -> (forall a, agree (k a) (k' a)) ->
  agree (bind m k) (bind m' k').
Proof.
  intros Hm Hk s. unfold bind. rewrite Hm.
  destruct (m' s) as [a s1 | e s1]; [apply Hk | reflexivity].
Qed.

Section AcceptingService.
Variable curses : Curses.
Hypothesis color_ok : forall n r g b, init_color curses n r g b = true.
Hypothesis pair_ok : forall p fg bg, init_pair curses p fg bg = true.

Ltac agree_steps :=
  repeat first
    [ match goal with
      | |- agree ?m ?m' => constr_eq m m'; exact (agree_refl m)
      end
    | apply agree_bind; [| intros ?]
    | intros ?; rewrite ?color_ok, ?pair_ok; reflexivity ].

Lemma _update_color_accepted :
  agree (_update_color curses) (_update_color accepting).
Proof.
  unfold _update_color, _set_demo_color, curses_init_color. agree_steps.
Qed.

Lemma _init_demo_color_accepted (demo_ui : CursesUI) :
  agree (_init_demo_color curses demo_ui)
        (_init_demo_color accepting demo_ui).
Proof.
  unfold _init_demo_color, _set_demo_color, curses_init_color,
    curses_init_pair.
  agree_steps.
Qed.

Lemma run_fast_accepted (ticks : nat) :
  agree (run_fast curses ticks) (run_fast accepting ticks).
Proof.
  induction ticks as [| k IH]; cbn [run_fast].
  - apply agree_refl.
  - apply agree_bind; [| intros _; exact IH].
    unfold run_fast_body.
    apply agree_bind; [apply _update_color_accepted | intros _].
    apply agree_refl.
Qed.
End AcceptingService.

(** C3, as stated, fails: on the instance that construction alone
    yields, the fast loop raises in its first iteration, before any
    attribute is assigned. *)
Lemma fast_task_raises_without_setup :
  run_fast accepting 10 __init__ = Raise AttributeError __init__.
Proof. vm_compute. reflexivity. Qed.

(** C3, amended. Construction followed by [_init_demo_color] (which
    display setup calls) and then 10 iterations of the body of the fast
    loop, on a terminal whose colour service accepts the calls, returns
    normally with fixed values: percent 0.9999999999999999 with step
    +0.1, colour channels 530, 560, 590 with steps 3, 6, 9. *)
Theorem fast_task_10_ticks_after_setup
    (curses : Curses) (demo_ui : CursesUI) :
  (forall n r g b, init_color curses n r g b = true) ->
  (forall p fg bg, init_pair curses p fg bg = true) ->
  exists s0 s10,
    _init_demo_color curses demo_ui __init__ = Ok tt s0 /\
    run_fast curses 10 s0 = Ok tt s10 /\
    current_percent s10 = f_below_1 /\
    _percent_delta s10 = f0_1 /\
    demo_red_value s10 = Some (PyInt 530) /\
    demo_green_value s10 = Some (PyInt 560) /\
    demo_blue_value s10 = Some (PyInt 590) /\
    demo_red_delta s10 = Some (PyInt 3) /\
    demo_green_delta s10 = Some (PyInt 6) /\
    demo_blue_delta s10 = Some (PyInt 9).
Proof.
  intros Hc Hp. destruct demo_ui as [numbers pairs].
  eexists. eexists.
  split.
  { rewrite (_init_demo_color_accepted curses Hc Hp). vm_compute. reflexivity. }
  split.
  { rewrite (run_fast_accepted curses Hc). vm_compute. reflexivity. }
  repeat split; reflexivity.
Qed.

Lemma fast_task_10_ticks_after_setup_witness :
  exists s0 s10,
    _init_demo_color accepting ui_256 __init__ = Ok tt s0 /\
    run_fast accepting 10 s0 = Ok tt s10 /\
    current_percent s10 = f_below_1 /\
    _percent_delta s10 = f0_1 /\
    demo_red_value s10 = Some (PyInt 530) /\
    demo_green_value s10 = Some (PyInt 560) /\
    demo_blue_value s10 = Some (PyInt 590) /\
    demo_red_delta s10 = Some (PyInt 3) /\
    demo_green_delta s10 = Some (PyInt 6) /\
    demo_blue_delta s10 = Some (PyInt 9).
Proof.
  apply (fast_task_10_ticks_after_setup accepting ui_256);
    intros; reflexivity.
Defined.

(** ** What the periodic tasks leave alone *)

Section Preserves.
Context {B : Type} (f : DemoProcess -> B).

Lemma preserves_ret {A : Type} (a : A) : preserves f (ret a).
Proof. intros s. reflexivity. Qed.

Lemma preserves_raise {A : Type} (e : exn) : preserves f (@raise A e).
Proof. intros s. reflexivity. Qed.

Lemma preserves_lift {A : Type} (x : exn + A) : preserves f (lift x).
Proof. intros s. destruct x; reflexivity. Qed.

Lemma preserves_read {A : Type} (g : DemoProcess -> A) :
  preserves f (read g).
Proof. intros s. reflexivity. Qed.

Lemma preserves_getattr (g : DemoProcess -> attr) :
  preserves f (getattr g).
Proof. intros s. unfold getattr. destruct (g s); reflexivity. Qed.

Lemma preserves_assign (set : DemoProcess -> DemoProcess) :
  (forall s, f (set s) = f s) -> preserves f (assign set).
Proof. intros H s. exact (H s). Qed.

Lemma preserves_bind {A C : Type} (m : M A) (k : A -> M C) :
  preserves f m -> (forall a, preserves f (k a)) -> preserves f (bind m k).
Proof.
  intros Hm Hk s. unfold bind.
  specialize (Hm s). destruct (m s) as [a s1 | e s1]; cbn in Hm.
  - rewrite Hk. exact Hm.
  - exact Hm.
Qed.

Lemma preserves_if {A : Type} (c : bool) (m1 m2 : M A) :
  preserves f m1 -> preserves f m2 -> preserves f (if c then m1 else m2).
Proof. destruct c; auto. Qed.
End Preserves.

Ltac preserve :=
  repeat first
    [ apply preserves_bind; [| intros ?]
    | apply preserves_if
    | apply preserves_ret
    | apply preserves_raise
    | apply preserves_lift
    | apply preserves_read
    | apply preserves_getattr
    | apply preserves_assign; intros ?; reflexivity ].

Lemma _update_color_keeps_mode (curses : Curses) :
  preserves mode (_update_color curses).
Proof.
  unfold _update_color, _set_demo_color, curses_init_color. preserve.
Qed.

Lemma _update_percent_keeps_mode : preserves mode _update_percent.
Proof. unfold _update_percent. preserve. Qed.

Lemma _update_temperature_keeps_mode : preserves mode _update_temperature.
Proof. unfold _update_temperature. preserve. Qed.

Lemma _update_state_keeps_mode (r : nat) : preserves mode (_update_state r).
Proof. unfold _update_state. preserve. Qed.

Lemma run_fast_keeps_mode (curses : Curses) (ticks : nat) :
  preserves mode (run_fast curses ticks).
Proof.
  induction ticks as [| k IH]; cbn [run_fast].
  - apply preserves_ret.
  - unfold run_fast_body.
    apply preserves_bind; [| intros _; exact IH].
    apply preserves_bind; [apply _update_color_keeps_mode |].
    intros _. apply _update_percent_keeps_mode.
Qed.

Lemma run_slow_keeps_mode (curses : Curses) (draws : list nat) :
  preserves mode (run_slow curses draws).
Proof.
  induction draws as [| r rest IH]; cbn [run_slow].
  - apply preserves_ret.
  - unfold run_slow_body.
    apply preserves_bind; [| intros _; exact IH].
    apply preserves_bind; [apply _update_temperature_keeps_mode |].
    intros _. apply preserves_bind; [apply _update_state_keeps_mode |].
    intros _. apply _update_color_keeps_mode.
Qed.

(** C7. Neither periodic task changes the mode: after any number of
    iterations of the fast or of the slow loop, from any instance and
    whether or not an iteration raised, the mode is the one the task
    started with. The write accessor stores exactly the member it is
    given and changes nothing else, and every value of the mode is one
    of the four members of [DemoModes]. *)
Theorem mode_set_only_by_accessor :
  (forall curses ticks s,
     mode (state_of (run_fast curses ticks s)) = mode s) /\
  (forall curses draws s,
     mode (state_of (run_slow curses draws s)) = mode s) /\
  (forall newmode s, exists s',
     set_demo_mode newmode s = Ok tt s' /\
     mode s' = newmode /\
     only_changes [F_mode] s s') /\
  (forall m : DemoModes, In m DemoModes_.members).
Proof.
  split; [intros curses ticks; apply run_fast_keeps_mode |].
  split; [intros curses draws; apply run_slow_keeps_mode |].
  split.
  - intros newmode s. eexists. split; [reflexivity |].
    split; [reflexivity | frame_by_cases].
  - intros []; cbn; tauto.
Qed.

(** ** Accessors *)

(** C8. Each of the four limit write accessors returns normally, stores
    its argument in its own limit and leaves every other attribute as it
    was; in particular the current temperature and the current percent
    are not clamped, whatever the new limit is. *)
Theorem limit_setters_frame (s : DemoProcess) :
  (forall tmax, exists s',
     set_demo_max_temperature tmax s = Ok tt s' /\
     max_temperature s' = tmax /\
     only_changes [F_max_temperature] s s' /\
     current_temperature s' = current_temperature s) /\
  (forall tmin, exists s',
     set_demo_min_temperature tmin s = Ok tt s' /\
     min_temperature s' = tmin /\
     only_changes [F_min_temperature] s s' /\
     current_temperature s' = current_temperature s) /\
  (forall pmax, exists s',
     set_demo_max_percent pmax s = Ok tt s' /\
     max_percent s' = pmax /\
     only_changes [F_max_percent] s s' /\
     current_percent s' = current_percent s) /\
  (forall pmin, exists s',
     set_demo_min_percent pmin s = Ok tt s' /\
     min_percent s' = pmin /\
     only_changes [F_min_percent] s s' /\
     current_percent s' = current_percent s).
Proof.
  repeat split; intros v; eexists;
    (split; [reflexivity |]); (split; [reflexivity |]);
    (split; [frame_by_cases | reflexivity]).
Qed.

(** A limit that excludes the current value is stored all the same. *)
Example limit_below_current :
  exists s',
    set_demo_max_temperature 15 __init__ = Ok tt s' /\
    max_temperature s' = 15 /\ current_temperature s' = 20.
Proof. eexists. repeat split. Qed.

(** C9. Every read accessor of the instance returns with the instance
    exactly as it found it, and the text it returns is its fixed prefix
    followed by the formatted current value of the attribute it reads.
    The colour text reads the three channel values, which exist once
    [_init_demo_color] has run; before that the accessor raises, again
    with the instance unchanged. *)
Theorem read_accessors_pure
    (repr_float : Py.float -> string) (s : DemoProcess) :
  get_demo_temperature_text s
    = Ok ("Current Temp: " ++ str_int (current_temperature s)) s /\
  get_demo_percent_text s
    = Ok ("Percent: " ++ format_2f (current_percent s)) s /\
  get_demo_state_text s
    = Ok ("Current State: " ++ current_state_name s) s /\
  get_demo_mode_text s
    = Ok ("Current Mode: " ++ DemoModes_.name (mode s)) s /\
  get_demo_mode_value s = Ok (DemoModes_.value (mode s)) s /\
  get_demo_tmax_text s
    = Ok ("Max Temperature: " ++ str_int (max_temperature s)) s /\
  get_demo_tmin_text s
    = Ok ("Min Temperature: " ++ str_int (min_temperature s)) s /\
  get_demo_pmax_text repr_float s
    = Ok ("Max Percent: " ++ repr_float (max_percent s)) s /\
  get_demo_pmin_text repr_float s
    = Ok ("Min Percent: " ++ repr_float (min_percent s)) s /\
  get_demo_color_text s
    = match demo_red_value s, demo_green_value s, demo_blue_value s with
      | Some r, Some g, Some b =>
          Ok ("Color: R:" ++ str_obj r ++ " G:" ++ str_obj g
              ++ " B:" ++ str_obj b) s
      | _, _, _ => Raise AttributeError s
      end.
Proof.
  repeat split; try reflexivity.
  unfold get_demo_color_text, bind, getattr, ret.
  destruct (demo_red_value s), (demo_green_value s), (demo_blue_value s);
    reflexivity.
Qed.

Example color_text_after_setup :
  get_demo_color_text (state_of (_init_demo_color accepting ui_256 __init__))
  = Ok "Color: R:500 G:500 B:500"
       (state_of (_init_demo_color accepting ui_256 __init__)).
Proof. vm_compute. reflexivity. Qed.

(** * Further properties *)

(** ** The oscillators between two edits of their limits *)

Lemma advance_int_in_band (r : Spec.BoundedRange Z) :
  Spec.floor r < Spec.ceiling r ->
  Spec.step r <> 0 ->
  in_band r ->
  in_band (Spec.advance_int r) /\
  Spec.floor (Spec.advance_int r) = Spec.floor r /\
  Spec.ceiling (Spec.advance_int r) = Spec.ceiling r /\
  Z.abs (Spec.step (Spec.advance_int r)) = Z.abs (Spec.step r).
Proof.
  destruct r as [c lo hi d]. unfold in_band, Spec.advance_int, Spec.advance,
    Spec.flips. cbn [Spec.current Spec.floor Spec.ceiling Spec.step].
  intros Hlim Hd (Hband & Hup & Hdown).
  destruct (Z.geb_spec (c + d) hi); destruct (Z.leb_spec (c + d) lo);
    cbn [orb]; repeat split; try lia.
Qed.

Lemma iter_advance_int_in_band (n : nat) (r : Spec.BoundedRange Z) :
  Spec.floor r < Spec.ceiling r ->
  Spec.step r <> 0 ->
  in_band r ->
  in_band (Nat.iter n Spec.advance_int r) /\
  Spec.floor (Nat.iter n Spec.advance_int r) = Spec.floor r /\
  Spec.ceiling (Nat.iter n Spec.advance_int r) = Spec.ceiling r /\
  Z.abs (Spec.step (Nat.iter n Spec.advance_int r)) = Z.abs (Spec.step r).
Proof.
  intros Hlim Hd Hb. induction n as [| n IH].
  - cbn. auto.
  - rewrite Nat.iter_succ. destruct IH as (Ib & If & Ic & Is).
    destruct (advance_int_in_band (Nat.iter n Spec.advance_int r))
      as (Jb & Jf & Jc & Js); try assumption; try lia.
    split; [exact Jb |]. split; [congruence |]. split; congruence.
Qed.

(** X1. Without an edit of the limits, the temperature never leaves the
    band: from an instance whose temperature is less than one step past
    its limits and heading back when at or past one, any number of calls
    of [_update_temperature] return and leave the temperature in that
    same band, with the limits and the magnitude of the step as they
    were. *)
Theorem temperature_stays_in_band (n : nat) (s : DemoProcess) :
  min_temperature s < max_temperature s ->
  _temperature_delta s <> 0 ->
  in_band (temperature_range s) ->
  exists s',
    repeat_call n _update_temperature s = Ok tt s' /\
    in_band (temperature_range s') /\
    min_temperature s' = min_temperature s /\
    max_temperature s' = max_temperature s /\
    Z.abs (_temperature_delta s') = Z.abs (_temperature_delta s).
Proof.
  intros Hlim Hd Hb.
  destruct (temperature_sequence n s) as (s' & E & R).
  destruct (iter_advance_int_in_band n (temperature_range s) Hlim Hd Hb)
    as (Ib & If & Ic & Is).
  rewrite <- R in Ib, If, Ic, Is.
  exists s'. split; [exact E |]. split; [exact Ib |].
  split; [exact If |]. split; [exact Ic | exact Is].
Qed.

Lemma temperature_stays_in_band_witness :
  exists s',
    repeat_call 1000 _update_temperature __init__ = Ok tt s' /\
    in_band (temperature_range s') /\
    min_temperature s' = 10 /\
    max_temperature s' = 30 /\
    Z.abs (_temperature_delta s') = 1.
Proof.
  apply (temperature_stays_in_band 1000 __init__).
  - reflexivity.
  - discriminate.
  - unfold in_band. cbn. lia.
Defined.

Lemma advance_int_trapped (r : Spec.BoundedRange Z) :
  (Spec.ceiling r <= Spec.current r /\
   Spec.ceiling r <= Spec.current r + Spec.step r) \/
  (Spec.current r <= Spec.floor r /\
   Spec.current r + Spec.step r <= Spec.floor r) ->
  Spec.advance_int (Spec.advance_int r) = r.
Proof.
  destruct r as [c lo hi d].
  unfold Spec.advance_int, Spec.advance, Spec.flips.
  cbn [Spec.current Spec.floor Spec.ceiling Spec.step].
  intros H.
  assert (F1 : ((c + d >=? hi) || (c + d <=? lo)) = true).
  { apply orb_true_iff. rewrite Z.geb_le, Z.leb_le. lia. }
  rewrite F1.
  assert (F2 : ((c + d + - d >=? hi) || (c + d + - d <=? lo)) = true).
  { apply orb_true_iff. rewrite Z.geb_le, Z.leb_le. lia. }
  rewrite F2. f_equal; lia.
Qed.

(** X2. A limit that shuts the temperature out traps it: when the
    current temperature and the next one are both at or above the
    maximum (or both at or below the minimum), two calls of
    [_update_temperature] bring the instance back to exactly where it
    was, so the temperature steps away and back for ever and never
    comes inside the limits. *)
Theorem temperature_trapped_outside (s : DemoProcess) :
  (max_temperature s <= current_temperature s /\
   max_temperature s <= current_temperature s + _temperature_delta s) \/
  (current_temperature s <= min_temperature s /\
   current_temperature s + _temperature_delta s <= min_temperature s) ->
  repeat_call 2 _update_temperature s = Ok tt s.
Proof.
  intros H.
  destruct (_update_temperature_advance s) as (s1 & E1 & R1 & F1).
  destruct (_update_temperature_advance s1) as (s2 & E2 & R2 & F2).
  assert (R : temperature_range s2 = temperature_range s).
  { rewrite R2, R1. apply advance_int_trapped. exact H. }
  assert (Es : s2 = s).
  { apply field_value_ext. intros f.
    destruct (field_eq_dec f F_current_temperature) as [-> | N1].
    - cbn. f_equal.
      change (Spec.current (temperature_range s2)
              = Spec.current (temperature_range s)).
      rewrite R. reflexivity.
    - destruct (field_eq_dec f F__temperature_delta) as [-> | N2].
      + cbn. f_equal.
        change (Spec.step (temperature_range s2)
                = Spec.step (temperature_range s)).
        rewrite R. reflexivity.
      + rewrite F2, F1; [reflexivity | |]; cbn; intuition congruence. }
  cbn [repeat_call].
  rewrite (bind_ok _ _ _ _ _ E1), (bind_ok _ _ _ _ _ E2). rewrite Es.
  reflexivity.
Qed.

Lemma temperature_trapped_outside_witness :
  repeat_call 2 _update_temperature (set_max_temperature 15 __init__)
  = Ok tt (set_max_temperature 15 __init__).
Proof.
  apply temperature_trapped_outside. left. cbn. lia.
Defined.

(** ** Display setup of the colours *)

Lemma _init_demo_color_cases
    (curses : Curses) (demo_ui : CursesUI) (s : DemoProcess) :
  let n := total_color_numbers demo_ui - 1 in
  let p := ui_total_color_pairs demo_ui - 1 in
  exists s1 s2,
    _init_demo_color curses demo_ui s =
      (if init_color curses n 500 500 500
       then if init_pair curses p COLOR_BLACK n
            then Ok tt s2 else Raise CursesError s2
       else Raise CursesError s1) /\
    seeded n s1 /\ seeded n s2 /\
    total_color_pairs s1 = total_color_pairs s /\
    demo_color_pair s1 = demo_color_pair s /\
    total_color_pairs s2 = Some (PyInt (ui_total_color_pairs demo_ui)) /\
    demo_color_pair s2 = Some (PyInt p) /\
    only_changes [F_max_color_value; F_min_color_value;
                  F_demo_red_value; F_demo_green_value; F_demo_blue_value;
                  F_demo_red_delta; F_demo_green_delta; F_demo_blue_delta;
                  F_demo_color_pair2; F_demo_pair2_delta;
                  F_demo_color_number;
                  F_total_color_pairs; F_demo_color_pair] s s2.
Proof.
  intros n p. subst n p.
  destruct s as [t d hi lo nm delay cnt md rc gc bc rd gd bd pc pd phi plo
                 cmax cmin rv gv bv cp2 p2d cn tcp cp].
  destruct demo_ui as [numbers pairs].
  unfold _init_demo_color, _set_demo_color, curses_init_color,
    curses_init_pair, seeded, red_range, green_range, blue_range,
    channel_range.
  cbn [total_color_numbers ui_total_color_pairs].
  run_model.
  do 3 (rewrite max_int; run_model; rewrite min_int; run_model).
  cbv beta iota delta [as_int]. run_model.
  change (Z.min 999 (Z.max 500 0)) with 500.
  exists {| current_temperature := t; _temperature_delta := d;
      max_temperature := hi; min_temperature := lo;
      current_state_name := nm; _state_delay := delay; _state_count := cnt;
      mode := md; demo_red_color := rc; demo_green_color := gc;
      demo_blue_color := bc; demo_red_delta := Some (PyInt 3);
      demo_green_delta := Some (PyInt 6); demo_blue_delta := Some (PyInt 9);
      current_percent := pc; _percent_delta := pd; max_percent := phi;
      min_percent := plo; max_color_value := Some (PyInt 999);
      min_color_value := Some (PyInt 0);
      demo_red_value := Some (PyInt 500);
      demo_green_value := Some (PyInt 500);
      demo_blue_value := Some (PyInt 500);
      demo_color_pair2 := Some (PyInt 1); demo_pair2_delta := Some (PyInt 1);
      demo_color_number := Some (PyInt (numbers - 1));
      total_color_pairs := tcp;
      demo_color_pair := cp |}.
  exists {| current_temperature := t; _temperature_delta := d;
      max_temperature := hi; min_temperature := lo;
      current_state_name := nm; _state_delay := delay; _state_count := cnt;
      mode := md; demo_red_color := rc; demo_green_color := gc;
      demo_blue_color := bc; demo_red_delta := Some (PyInt 3);
      demo_green_delta := Some (PyInt 6); demo_blue_delta := Some (PyInt 9);
      current_percent := pc; _percent_delta := pd; max_percent := phi;
      min_percent := plo; max_color_value := Some (PyInt 999);
      min_color_value := Some (PyInt 0);
      demo_red_value := Some (PyInt 500);
      demo_green_value := Some (PyInt 500);
      demo_blue_value := Some (PyInt 500);
      demo_color_pair2 := Some (PyInt 1); demo_pair2_delta := Some (PyInt 1);
      demo_color_number := Some (PyInt (numbers - 1));
      total_color_pairs := Some (PyInt pairs);
      demo_color_pair := Some (PyInt (pairs - 1)) |}.
  destruct (init_color curses (numbers - 1) 500 500 500).
  - run_model. cbv beta iota delta [sub as_int]. run_model.
    destruct (init_pair curses (pairs - 1) COLOR_BLACK (numbers - 1));
      (split; [reflexivity |]);
      repeat split; try reflexivity; frame_by_cases.
  - split; [reflexivity |].
    repeat split; try reflexivity; frame_by_cases.
Qed.

Lemma _init_demo_color_seeds
    (curses : Curses) (demo_ui : CursesUI) (s : DemoProcess) :
  seeded (total_color_numbers demo_ui - 1)
         (state_of (_init_demo_color curses demo_ui s)).
Proof.
  destruct (_init_demo_color_cases curses demo_ui s)
    as (s1 & s2 & E & H1 & H2 & _).
  rewrite E.
  destruct (init_color curses _ _ _ _);
    [destruct (init_pair curses _ _ _) |]; assumption.
Qed.

(** X3. The outcome of [_init_demo_color] depends on the colour
    service through two calls only, whatever instance it starts from:
    the definition of the last colour number as (500, 500, 500) and
    then the pairing of the last pair number with black on that colour.
    If the first call raises, the error
    leaves the method with the channels already seeded but with
    [total_color_pairs] and [demo_color_pair] not assigned; if the
    second raises, every attribute has been assigned. *)
Theorem _init_demo_color_outcomes
    (curses : Curses) (demo_ui : CursesUI) (s : DemoProcess) :
  let n := total_color_numbers demo_ui - 1 in
  let p := ui_total_color_pairs demo_ui - 1 in
  exists s1 s2,
    _init_demo_color curses demo_ui s =
      (if init_color curses n 500 500 500
       then if init_pair curses p COLOR_BLACK n
            then Ok tt s2 else Raise CursesError s2
       else Raise CursesError s1) /\
    seeded n s1 /\ seeded n s2 /\
    total_color_pairs s1 = total_color_pairs s /\
    demo_color_pair s1 = demo_color_pair s /\
    total_color_pairs s2 = Some (PyInt (ui_total_color_pairs demo_ui)) /\
    demo_color_pair s2 = Some (PyInt p) /\
    only_changes [F_max_color_value; F_min_color_value;
                  F_demo_red_value; F_demo_green_value; F_demo_blue_value;
                  F_demo_red_delta; F_demo_green_delta; F_demo_blue_delta;
                  F_demo_color_pair2; F_demo_pair2_delta;
                  F_demo_color_number;
                  F_total_color_pairs; F_demo_color_pair] s s2.
Proof. exact (_init_demo_color_cases curses demo_ui s). Qed.

(** ** The colour channels after display setup *)

Lemma _update_color_keeps_number (curses : Curses) :
  preserves demo_color_number (_update_color curses).
Proof.
  unfold _update_color, _set_demo_color, curses_init_color. preserve.
Qed.

Lemma seeded_sequence (curses : Curses) (n : Z) (k : nat) (s : DemoProcess) :
  seeded n s ->
  let s' := Nat.iter k (fun s0 => state_of (_update_color curses s0)) s in
  exists r g b,
    red_range s' = Some r /\ green_range s' = Some g /\
    blue_range s' = Some b /\
    demo_color_number s' = Some (PyInt n) /\
    (in_band r /\ Spec.floor r = 0 /\ Spec.ceiling r = 999 /\
     Z.abs (Spec.step r) = 3) /\
    (in_band g /\ Spec.floor g = 0 /\ Spec.ceiling g = 999 /\
     Z.abs (Spec.step g) = 6) /\
    (in_band b /\ Spec.floor b = 0 /\ Spec.ceiling b = 999 /\
     Z.abs (Spec.step b) = 9).
Proof.
  intros (Hr & Hg & Hb & Hn) s'.
  destruct (color_sequence curses k s _ _ _ n Hr Hg Hb Hn) as (Kr & Kg & Kb).
  fold s' in Kr, Kg, Kb.
  do 3 eexists. split; [exact Kr |]. split; [exact Kg |]. split; [exact Kb |].
  split.
  { subst s'. clear Kr Kg Kb. induction k as [| k IH]; [exact Hn |].
    rewrite Nat.iter_succ, _update_color_keeps_number. exact IH. }
  split; [| split];
    (match goal with
     | |- in_band (Nat.iter _ _ ?r0) /\ _ =>
         destruct (iter_advance_int_in_band k r0) as (Ib & If & Ic & Is);
         [reflexivity | discriminate | unfold in_band; cbn; lia |]
     end;
     split; [exact Ib |]; split; [exact If |]; split; [exact Ic | exact Is]).
Qed.

(** X4. Once [_init_demo_color] has seeded them, the colour channels
    stay within one step of [0, 999] for ever: after any number of calls
    of [_update_color], whether or not the colour service raised in some
    of them, red lies in [-2, 1001], green in [-5, 1004] and blue in
    [-8, 1007], and the limits still are 0 and 999. *)
Theorem color_channels_stay_in_band
    (curses : Curses) (n : Z) (k : nat) (s : DemoProcess) :
  seeded n s ->
  let s' := Nat.iter k (fun s0 => state_of (_update_color curses s0)) s in
  exists r g b,
    demo_red_value s' = Some (PyInt r) /\ -3 < r < 1002 /\
    demo_green_value s' = Some (PyInt g) /\ -6 < g < 1005 /\
    demo_blue_value s' = Some (PyInt b) /\ -9 < b < 1008 /\
    min_color_value s' = Some (PyInt 0) /\
    max_color_value s' = Some (PyInt 999).
Proof.
  intros Hs s'.
  destruct (seeded_sequence curses n k s Hs)
    as (r & g & b & Hr & Hg & Hb & _ & Br & Bg & Bb).
  fold s' in Hr, Hg, Hb.
  unfold red_range, green_range, blue_range, channel_range in Hr, Hg, Hb.
  destruct (demo_red_value s') as [[| rv] |]; try discriminate.
  destruct (demo_red_delta s') as [[| rd] |]; try discriminate.
  destruct (min_color_value s') as [[| lo] |]; try discriminate.
  destruct (max_color_value s') as [[| hi] |]; try discriminate.
  destruct (demo_green_value s') as [[| gv] |]; try discriminate.
  destruct (demo_green_delta s') as [[| gd] |]; try discriminate.
  destruct (demo_blue_value s') as [[| bv] |]; try discriminate.
  destruct (demo_blue_delta s') as [[| bd] |]; try discriminate.
  injection Hr as <-. injection Hg as <-. injection Hb as <-.
  unfold in_band in Br, Bg, Bb.
  cbn [Spec.current Spec.floor Spec.ceiling Spec.step] in Br, Bg, Bb.
  destruct Br as ((Br1 & _) & Br2 & Br3 & Br4).
  destruct Bg as ((Bg1 & _) & _ & _ & Bg4).
  destruct Bb as ((Bb1 & _) & _ & _ & Bb4).
  subst lo hi.
  exists rv, gv, bv. repeat split; try reflexivity; lia.
Qed.

Lemma color_channels_stay_in_band_witness :
  let s0 := state_of (_init_demo_color accepting ui_256 __init__) in
  let s' := Nat.iter 700 (fun s => state_of (_update_color rejecting s)) s0 in
  exists r g b,
    demo_red_value s' = Some (PyInt r) /\ -3 < r < 1002 /\
    demo_green_value s' = Some (PyInt g) /\ -6 < g < 1005 /\
    demo_blue_value s' = Some (PyInt b) /\ -9 < b < 1008 /\
    min_color_value s' = Some (PyInt 0) /\
    max_color_value s' = Some (PyInt 999).
Proof.
  intros s0 s'.
  apply (color_channels_stay_in_band rejecting 255 700 s0).
  repeat split; reflexivity.
Defined.



(** ** The call to the colour service *)




(** ** What each task owns *)

Lemma run_fast_preserves {B : Type} (f : DemoProcess -> B)
    (curses : Curses) (ticks : nat) :
  preserves f (_update_color curses) ->
  preserves f _update_percent ->
  preserves f (run_fast curses ticks).
Proof.
  intros Hc Hp. induction ticks as [| k IH]; cbn [run_fast].
  - apply preserves_ret.
  - unfold run_fast_body.
    apply preserves_bind; [| intros _; exact IH].
    apply preserves_bind; [exact Hc | intros _; exact Hp].
Qed.

Lemma run_slow_preserves {B : Type} (f : DemoProcess -> B)
    (curses : Curses) (draws : list nat) :
  preserves f _update_temperature ->
  (forall r, preserves f (_update_state r)) ->
  preserves f (_update_color curses) ->
  preserves f (run_slow curses draws).
Proof.
  intros Ht Hs Hc. induction draws as [| r rest IH]; cbn [run_slow].
  - apply preserves_ret.
  - unfold run_slow_body.
    apply preserves_bind; [| intros _; exact IH].
    apply preserves_bind; [exact Ht | intros _].
    apply preserves_bind; [apply Hs | intros _; exact Hc].
Qed.

(** X7. The tasks keep to their own attributes. Neither task ever
    assigns a limit (the temperature and percent limits, the period of
    the discrete state, the colour limits, the colour number); the fast
    task never assigns the temperature, its step, the state name or the
    state counter; the slow task never assigns the percent or its step.
    This holds after any number of iterations, from any instance, also
    when an iteration raised. *)
Theorem tasks_keep_to_their_attributes :
  (forall curses ticks s,
     limits (state_of (run_fast curses ticks s)) = limits s /\
     slow_owned (state_of (run_fast curses ticks s)) = slow_owned s) /\
  (forall curses draws s,
     limits (state_of (run_slow curses draws s)) = limits s /\
     fast_owned (state_of (run_slow curses draws s)) = fast_owned s).
Proof.
  split.
  - intros curses ticks s. split.
    + apply (run_fast_preserves limits).
      * unfold _update_color, _set_demo_color, curses_init_color. preserve.
      * unfold _update_percent. preserve.
    + apply (run_fast_preserves slow_owned).
      * unfold _update_color, _set_demo_color, curses_init_color. preserve.
      * unfold _update_percent. preserve.
  - intros curses draws s. split.
    + apply (run_slow_preserves limits).
      * unfold _update_temperature. preserve.
      * intros r. unfold _update_state. preserve.
      * unfold _update_color, _set_demo_color, curses_init_color. preserve.
    + apply (run_slow_preserves fast_owned).
      * unfold _update_temperature. preserve.
      * intros r. unfold _update_state. preserve.
      * unfold _update_color, _set_demo_color, curses_init_color. preserve.
Qed.

(** ** The discrete state over any period *)

Lemma only_changes_state_delay fs s s' :
  only_changes fs s s' -> ~ In F__state_delay fs ->
  _state_delay s' = _state_delay s.
Proof.
  intros F N. pose proof (F F__state_delay N) as H. cbn in H.
  injection H as H. exact H.
Qed.

Lemma only_changes_trans fs s1 s2 s3 :
  only_changes fs s1 s2 -> only_changes fs s2 s3 -> only_changes fs s1 s3.
Proof. intros F1 F2 f N. rewrite F2, F1; auto. Qed.

Lemma only_changes_weaken fs fs' s s' :
  only_changes fs s s' -> (forall f, In f fs -> In f fs') ->
  only_changes fs' s s'.
Proof. intros F Hs f N. apply F. intros Hin. apply N, Hs, Hin. Qed.

Lemma update_state_calls_app (l1 l2 : list nat) (s : DemoProcess) :
  update_state_calls (l1 ++ l2)%list s =
  match update_state_calls l1 s with
  | Ok _ s' => update_state_calls l2 s'
  | Raise e s' => Raise e s'
  end.
Proof.
  revert s. induction l1 as [| r l1 IH]; intros s; cbn.
  - reflexivity.
  - unfold bind. destruct (_update_state r s) as [[] s1 | e s1];
      [apply IH | reflexivity].
Qed.

Lemma name_in_state_names (r : nat) (d : DemoStates) :
  nth_error DemoStates_.members r = Some d ->
  In (DemoStates_.name d) state_names.
Proof.
  intros H. unfold state_names. apply in_map.
  apply nth_error_In with (n := r). exact H.
Qed.

Lemma _update_state_keeps_invariant (r : nat) (s : DemoProcess) :
  (r < 4)%nat ->
  1 <= _state_count s <= _state_delay s ->
  In (current_state_name s) state_names ->
  exists s',
    _update_state r s = Ok tt s' /\
    1 <= _state_count s' <= _state_delay s' /\
    In (current_state_name s') state_names /\
    only_changes [F__state_count; F_current_state_name] s s'.
Proof.
  intros Hr Hc Hn.
  destruct (Z_lt_le_dec 0 (_state_count s - 1)) as [Hpos | Hzero].
  - destruct (_update_state_waits r s Hpos) as (s' & E & C & N & F).
    exists s'. split; [exact E |].
    rewrite (only_changes_state_delay _ _ _ F), C, N
      by (cbn; intuition discriminate).
    split; [lia |]. split; [exact Hn |].
    apply (only_changes_weaken _ _ _ _ F). cbn. tauto.
  - destruct (proj2 (proj2 (proj2 members_indexed)) r Hr) as (d & Hd).
    destruct (_update_state_reselects r s d Hzero Hd) as (s' & E & C & N & F).
    exists s'. split; [exact E |].
    rewrite (only_changes_state_delay _ _ _ F), C, N
      by (cbn; intuition discriminate).
    split; [lia |]. split; [exact (name_in_state_names r d Hd) | exact F].
Qed.

(** X8. The discrete state keeps its invariant: from an instance whose
    counter lies between 1 and the period and whose state name is the
    name of a member of [DemoStates] (as after construction), any number
    of calls of [_update_state] with indices that [random.choice] can
    draw return normally and leave the counter between 1 and the
    unchanged period and the state name a member's name; nothing but
    the counter and the state name changes. *)
Theorem discrete_state_invariant (draws : list nat) (s : DemoProcess) :
  Forall (fun r => (r < 4)%nat) draws ->
  1 <= _state_count s <= _state_delay s ->
  In (current_state_name s) state_names ->
  exists s',
    update_state_calls draws s = Ok tt s' /\
    1 <= _state_count s' <= _state_delay s' /\
    _state_delay s' = _state_delay s /\
    In (current_state_name s') state_names /\
    only_changes [F__state_count; F_current_state_name] s s'.
Proof.
  intros Hd. revert s. induction Hd as [| r rest Hr _ IH]; intros s Hc Hn.
  - exists s. split; [reflexivity |].
    split; [exact Hc |]. split; [reflexivity |]. split; [exact Hn |].
    intros f _. reflexivity.
  - destruct (_update_state_keeps_invariant r s Hr Hc Hn)
      as (s1 & E1 & C1 & N1 & F1).
    destruct (IH s1 C1 N1) as (s' & E & C & D & N & F).
    exists s'. split.
    + cbn [update_state_calls]. rewrite (bind_ok _ _ _ _ _ E1). exact E.
    + split; [exact C |]. split.
      * rewrite D. apply (only_changes_state_delay _ _ _ F1).
        cbn. intuition discriminate.
      * split; [exact N | exact (only_changes_trans _ _ _ _ F1 F)].
Qed.

Lemma discrete_state_invariant_witness :
  exists s',
    update_state_calls [3; 0; 2; 2; 1; 0; 3]%nat __init__ = Ok tt s' /\
    1 <= _state_count s' <= _state_delay s' /\
    _state_delay s' = 5 /\
    In (current_state_name s') state_names /\
    only_changes [F__state_count; F_current_state_name] __init__ s'.
Proof.
  apply (discrete_state_invariant [3; 0; 2; 2; 1; 0; 3]%nat __init__).
  - repeat constructor.
  - cbn. lia.
  - cbn. tauto.
Defined.

Lemma update_state_calls_wait (draws : list nat) (s : DemoProcess) :
  Z.of_nat (List.length draws) < _state_count s ->
  exists s',
    update_state_calls draws s = Ok tt s' /\
    current_state_name s' = current_state_name s /\
    _state_count s' = _state_count s - Z.of_nat (List.length draws) /\
    _state_delay s' = _state_delay s.
Proof.
  revert s. induction draws as [| r rest IH]; intros s H.
  - exists s. cbn. repeat split; lia.
  - cbn [List.length] in H.
    destruct (_update_state_waits r s) as (s1 & E1 & C1 & N1 & F1); [lia |].
    destruct (IH s1) as (s' & E & N & C & D); [lia |].
    exists s'. split.
    + cbn [update_state_calls]. rewrite (bind_ok _ _ _ _ _ E1). exact E.
    + rewrite N, C, D, N1, C1.
      rewrite (only_changes_state_delay _ _ _ F1)
        by (cbn; intuition discriminate).
      cbn [List.length]. repeat split; lia.
Qed.

(** X9. One reselection per countdown, for every period: while fewer
    calls of [_update_state] have been made than the counter holds, the
    state name is as it was and the counter has gone down by the number
    of calls, whatever the random generator would have drawn; the call
    that brings the counter to zero stores the name of the drawn member
    and puts the counter back to the period. *)
Theorem discrete_state_countdown
    (draws : list nat) (r : nat) (d : DemoStates) (s : DemoProcess) :
  Z.of_nat (List.length draws) + 1 = _state_count s ->
  nth_error DemoStates_.members r = Some d ->
  (forall k, (k <= List.length draws)%nat ->
     exists sk,
       update_state_calls (firstn k draws) s = Ok tt sk /\
       current_state_name sk = current_state_name s /\
       _state_count sk = _state_count s - Z.of_nat k) /\
  exists s',
    update_state_calls (draws ++ [r])%list s = Ok tt s' /\
    current_state_name s' = DemoStates_.name d /\
    _state_count s' = _state_delay s.
Proof.
  intros Hc Hd. split.
  - intros k Hk.
    destruct (update_state_calls_wait (firstn k draws) s)
      as (sk & E & N & C & _).
    + rewrite length_firstn. lia.
    + exists sk. split; [exact E |]. split; [exact N |].
      rewrite C, length_firstn. lia.
  - destruct (update_state_calls_wait draws s) as (s1 & E1 & N1 & C1 & D1);
      [lia |].
    destruct (_update_state_reselects r s1 d) as (s2 & E2 & C2 & N2 & _);
      [lia | exact Hd |].
    exists s2. split.
    + rewrite update_state_calls_app, E1. cbn [update_state_calls].
      rewrite (bind_ok _ _ _ _ _ E2). reflexivity.
    + split; [exact N2 | congruence].
Qed.

Lemma discrete_state_countdown_witness :
  (exists s3,
     update_state_calls (firstn 3 [7; 7; 7; 7]%nat) __init__ = Ok tt s3 /\
     current_state_name s3 = "Disconnected" /\
     _state_count s3 = 5 - Z.of_nat 3) /\
  exists s',
    update_state_calls ([7; 7; 7; 7] ++ [3])%nat%list __init__ = Ok tt s' /\
    current_state_name s' = "Faulted" /\
    _state_count s' = 5.
Proof.
  destruct (discrete_state_countdown
              [7; 7; 7; 7]%nat 3%nat Faulted __init__ eq_refl eq_refl)
    as (Hwait & Hsel).
  split; [apply (Hwait 3%nat); cbn; lia | exact Hsel].
Defined.

(** ** The percent from its default state, for all time *)

Lemma percent_cycle :
  repeat_call 48 _update_percent __init__
  = repeat_call 4 _update_percent __init__.
Proof. vm_compute. reflexivity. Qed.

Lemma percent_cycles (m : nat) :
  repeat_call (4 + m + 44) _update_percent __init__
  = repeat_call (4 + m) _update_percent __init__.
Proof.
  replace (4 + m + 44)%nat with (48 + m)%nat by lia.
  rewrite (repeat_call_add 48), (repeat_call_add 4), percent_cycle.
  reflexivity.
Qed.

Lemma percent_bounded_early (n : nat) :
  (n < 48)%nat ->
  exists s',
    repeat_call n _update_percent __init__ = Ok tt s' /\
    fle (SFopp f_above_1) (current_percent s') = true /\
    fle (current_percent s') f_above_1 = true.
Proof.
  intros Hn.
  do 48 (destruct n as [| n];
         [eexists; split; [vm_compute; reflexivity |];
          split; vm_compute; reflexivity |]).
  lia.
Qed.

Lemma percent_cycles_mod (q r : nat) :
  repeat_call (4 + (44 * q + r)) _update_percent __init__
  = repeat_call (4 + r) _update_percent __init__.
Proof.
  induction q as [| q IH].
  - reflexivity.
  - replace (4 + (44 * S q + r))%nat with (4 + (44 * q + r) + 44)%nat by lia.
    rewrite percent_cycles. exact IH.
Qed.

Lemma percent_no_shorter_cycle (r : nat) :
  (r < 44)%nat ->
  repeat_call (4 + r) _update_percent __init__
  = repeat_call 4 _update_percent __init__ -> r = 0%nat.
Proof.
  intros Hr.
  do 44 (destruct r as [| r];
         [ try reflexivity; vm_compute; intros E; discriminate E | ]).
  lia.
Qed.

(** X10. From its default state the percent runs, after its first 4
    calls, through a cycle of exactly 44 calls (not 40: the binary64
    sums of 0.1 miss the limits 1.0 and -1.0 by one unit in the last
    place and overshoot), and it never leaves [-1.0999999999999999,
    1.0999999999999999]: rounding errors do not accumulate. *)
Theorem percent_orbit (n : nat) :
  (exists s',
     repeat_call n _update_percent __init__ = Ok tt s' /\
     fle (SFopp f_above_1) (current_percent s') = true /\
     fle (current_percent s') f_above_1 = true) /\
  (repeat_call (4 + n) _update_percent __init__
   = repeat_call 4 _update_percent __init__ <-> (n mod 44 = 0)%nat).
Proof.
  split.
  - induction n as [n IH] using (well_founded_induction lt_wf).
    destruct (Nat.lt_ge_cases n 48) as [Hlt | Hge].
    + apply percent_bounded_early. exact Hlt.
    + replace n with (4 + (n - 48) + 44)%nat by lia.
      rewrite percent_cycles. apply IH. lia.
  - rewrite (Nat.div_mod_eq n 44) at 1. rewrite percent_cycles_mod.
    split.
    + apply percent_no_shorter_cycle. apply Nat.mod_upper_bound. discriminate.
    + intros ->. reflexivity.
Qed.

(** ** Reading back what a write accessor stored *)

(** X11. What is read back after [set_demo_mode] identifies the mode
    that was written: the value accessor returns the integer of that
    member and the text accessor its name, and the four members of
    [DemoModes] have pairwise distinct integers and names (as have the
    four members of [DemoStates], so neither enumeration has aliases). *)
Theorem mode_read_back :
  (forall m s, exists s',
     set_demo_mode m s = Ok tt s' /\
     get_demo_mode_value s' = Ok (DemoModes_.value m) s' /\
     get_demo_mode_text s'
       = Ok ("Current Mode: " ++ DemoModes_.name m) s') /\
  (forall m m' s s',
     get_demo_mode_value (state_of (set_demo_mode m s))
     = Ok (DemoModes_.value m') s' -> m = m') /\
  (forall m m', DemoModes_.name m = DemoModes_.name m' -> m = m') /\
  (forall d d', DemoStates_.value d = DemoStates_.value d' -> d = d') /\
  (forall d d', DemoStates_.name d = DemoStates_.name d' -> d = d').
Proof.
  split; [intros m s; eexists; repeat split |].
  split.
  - intros m m' s s' H. cbn in H. injection H as H _.
    destruct m, m'; try reflexivity; discriminate H.
  - repeat split; intros x y H; destruct x, y;
      try reflexivity; discriminate H.
Qed.

(** ** The arrow keys *)

(** X12. The arrow-key response handles exactly the keys it is bound
    to: [_kr_scroll_msgwin] scrolls the Messages window for a key code
    if and only if that code is in [arrow_key_list], whatever the four
    codes are; when the four codes are distinct, each key scrolls in
    its own direction. *)
Theorem arrow_keys_handled (KEY_UP KEY_DOWN KEY_RIGHT KEY_LEFT : Z) :
  let handler := _kr_scroll_msgwin KEY_UP KEY_DOWN KEY_RIGHT KEY_LEFT in
  let keys := arrow_key_list KEY_UP KEY_DOWN KEY_RIGHT KEY_LEFT in
  (forall keyhit, In keyhit keys <-> handler keyhit <> None) /\
  (NoDup keys ->
   handler KEY_UP = Some scroll_up /\
   handler KEY_DOWN = Some scroll_down /\
   handler KEY_RIGHT = Some scroll_right /\
   handler KEY_LEFT = Some scroll_left).
Proof.
  intros handler keys. subst handler keys.
  unfold _kr_scroll_msgwin, arrow_key_list. split.
  - intros k. cbn [In].
    destruct (Z.eqb_spec k KEY_UP); [split; [discriminate | auto] |].
    destruct (Z.eqb_spec k KEY_DOWN); [split; [discriminate | auto] |].
    destruct (Z.eqb_spec k KEY_RIGHT); [split; [discriminate | auto] |].
    destruct (Z.eqb_spec k KEY_LEFT); [split; [discriminate | auto] |].
    split; [intuition congruence | intros H; contradiction H; reflexivity].
  - intros H.
    inversion H as [| ? ? N1 H1]; subst.
    inversion H1 as [| ? ? N2 H2]; subst.
    inversion H2 as [| ? ? N3 H3]; subst.
    cbn [In] in N1, N2, N3.
    rewrite !Z.eqb_refl.
    destruct (Z.eqb_spec KEY_DOWN KEY_UP); [intuition congruence |].
    destruct (Z.eqb_spec KEY_RIGHT KEY_UP); [intuition congruence |].
    destruct (Z.eqb_spec KEY_RIGHT KEY_DOWN); [intuition congruence |].
    destruct (Z.eqb_spec KEY_LEFT KEY_UP); [intuition congruence |].
    destruct (Z.eqb_spec KEY_LEFT KEY_DOWN); [intuition congruence |].
    destruct (Z.eqb_spec KEY_LEFT KEY_RIGHT); [intuition congruence |].
    repeat split.
Qed.

Lemma arrow_keys_handled_witness :
  _kr_scroll_msgwin 259 258 261 260 259 = Some scroll_up /\
  _kr_scroll_msgwin 259 258 261 260 258 = Some scroll_down /\
  _kr_scroll_msgwin 259 258 261 260 261 = Some scroll_right /\
  _kr_scroll_msgwin 259 258 261 260 260 = Some scroll_left.
Proof.
  apply (proj2 (arrow_keys_handled 259 258 261 260)).
  repeat constructor; cbn; intuition discriminate.
Defined.

(** ** The two tasks interleaved *)

Ltac field_same F fld H :=
  pose proof (F fld ltac:(cbn; intuition discriminate)) as H;
  cbn in H; injection H as H.

Lemma color_frame fs s s' :
  only_changes fs s s' ->
  ~ In F_demo_red_value fs -> ~ In F_demo_red_delta fs ->
  ~ In F_demo_green_value fs -> ~ In F_demo_green_delta fs ->
  ~ In F_demo_blue_value fs -> ~ In F_demo_blue_delta fs ->
  ~ In F_min_color_value fs -> ~ In F_max_color_value fs ->
  ~ In F_demo_color_number fs ->
  red_range s' = red_range s /\ green_range s' = green_range s /\
  blue_range s' = blue_range s /\
  demo_color_number s' = demo_color_number s.
Proof.
  intros F N1 N2 N3 N4 N5 N6 N7 N8 N9.
  pose proof (F _ N1) as H1. pose proof (F _ N2) as H2.
  pose proof (F _ N3) as H3. pose proof (F _ N4) as H4.
  pose proof (F _ N5) as H5. pose proof (F _ N6) as H6.
  pose proof (F _ N7) as H7. pose proof (F _ N8) as H8.
  pose proof (F _ N9) as H9.
  cbn in H1, H2, H3, H4, H5, H6, H7, H8, H9.
  injection H1 as H1. injection H2 as H2. injection H3 as H3.
  injection H4 as H4. injection H5 as H5. injection H6 as H6.
  injection H7 as H7. injection H8 as H8. injection H9 as H9.
  unfold red_range, green_range, blue_range, channel_range.
  rewrite H1, H2, H3, H4, H5, H6, H7, H8, H9. auto.
Qed.

Lemma temperature_frame fs s s' :
  only_changes fs s s' ->
  ~ In F_current_temperature fs -> ~ In F__temperature_delta fs ->
  ~ In F_min_temperature fs -> ~ In F_max_temperature fs ->
  temperature_range s' = temperature_range s.
Proof.
  intros F N1 N2 N3 N4.
  pose proof (F _ N1) as H1. pose proof (F _ N2) as H2.
  pose proof (F _ N3) as H3. pose proof (F _ N4) as H4.
  cbn in H1, H2, H3, H4.
  injection H1 as H1. injection H2 as H2.
  injection H3 as H3. injection H4 as H4.
  unfold temperature_range. rewrite H1, H2, H3, H4. reflexivity.
Qed.

Lemma percent_frame fs s s' :
  only_changes fs s s' ->
  ~ In F_current_percent fs -> ~ In F__percent_delta fs ->
  ~ In F_min_percent fs -> ~ In F_max_percent fs ->
  percent_range s' = percent_range s.
Proof.
  intros F N1 N2 N3 N4.
  pose proof (F _ N1) as H1. pose proof (F _ N2) as H2.
  pose proof (F _ N3) as H3. pose proof (F _ N4) as H4.
  cbn in H1, H2, H3, H4.
  injection H1 as H1. injection H2 as H2.
  injection H3 as H3. injection H4 as H4.
  unfold percent_range. rewrite H1, H2, H3, H4. reflexivity.
Qed.

Ltac not_in := cbn; intuition discriminate.

Lemma advance_float_step_valid (r : Spec.BoundedRange Py.float) :
  valid_binary prec emax (Spec.step r) = true ->
  valid_binary prec emax (Spec.step (Spec.advance_float r)) = true.
Proof.
  intros Hv. unfold Spec.advance_float, Spec.advance. cbn [Spec.step].
  destruct (Spec.flips _ _ _ _ _); [rewrite valid_binary_opp |]; exact Hv.
Qed.

Lemma _update_state_returns (r : nat) (s : DemoProcess) :
  (r < 4)%nat ->
  exists s',
    _update_state r s = Ok tt s' /\
    only_changes [F__state_count; F_current_state_name] s s'.
Proof.
  intros Hr.
  destruct (Z_lt_le_dec 0 (_state_count s - 1)) as [Hpos | Hzero].
  - destruct (_update_state_waits r s Hpos) as (s' & E & _ & _ & F).
    exists s'. split; [exact E |].
    apply (only_changes_weaken _ _ _ _ F). cbn. tauto.
  - destruct (proj2 (proj2 (proj2 members_indexed)) r Hr) as (d & Hd).
    destruct (_update_state_reselects r s d Hzero Hd) as (s' & E & _ & _ & F).
    exists s'. split; [exact E | exact F].
Qed.

Section Interleaving.

Variable curses : Curses.
Hypothesis color_ok : forall n r g b, init_color curses n r g b = true.

Lemma _update_color_returns (s : DemoProcess)
    (r g b : Spec.BoundedRange Z) (n : Z) :
  red_range s = Some r -> green_range s = Some g ->
  blue_range s = Some b -> demo_color_number s = Some (PyInt n) ->
  exists s',
    _update_color curses s = Ok tt s' /\
    red_range s' = Some (Spec.advance_int r) /\
    green_range s' = Some (Spec.advance_int g) /\
    blue_range s' = Some (Spec.advance_int b) /\
    demo_color_number s' = Some (PyInt n) /\
    temperature_range s' = temperature_range s /\
    percent_range s' = percent_range s.
Proof.
  intros Hr Hg Hb Hn.
  destruct (_update_color_advance curses s r g b n Hr Hg Hb Hn)
    as (s' & E & R & G & B & F).
  rewrite color_ok in E.
  exists s'. split; [exact E |].
  split; [exact R |]. split; [exact G |]. split; [exact B |].
  split.
  { field_same F F_demo_color_number H. rewrite H. exact Hn. }
  split.
  - apply (temperature_frame _ _ _ F); not_in.
  - apply (percent_frame _ _ _ F); not_in.
Qed.

Lemma run_fast_body_advances (s : DemoProcess)
    (r g b : Spec.BoundedRange Z) (n : Z) :
  red_range s = Some r -> green_range s = Some g ->
  blue_range s = Some b -> demo_color_number s = Some (PyInt n) ->
  valid_binary prec emax (_percent_delta s) = true ->
  exists s',
    run_fast_body curses s = Ok tt s' /\
    red_range s' = Some (Spec.advance_int r) /\
    green_range s' = Some (Spec.advance_int g) /\
    blue_range s' = Some (Spec.advance_int b) /\
    demo_color_number s' = Some (PyInt n) /\
    temperature_range s' = temperature_range s /\
    percent_range s' = Spec.advance_float (percent_range s).
Proof.
  intros Hr Hg Hb Hn Hv.
  destruct (_update_color_returns s r g b n Hr Hg Hb Hn)
    as (s1 & E1 & R1 & G1 & B1 & N1 & T1 & P1).
  assert (Hv1 : valid_binary prec emax (_percent_delta s1) = true).
  { change (_percent_delta s1) with (Spec.step (percent_range s1)).
    rewrite P1. exact Hv. }
  destruct (_update_percent_advance s1 Hv1) as (s2 & E2 & P2 & F2).
  destruct (color_frame _ _ _ F2) as (R2 & G2 & B2 & N2); try not_in.
  exists s2. split.
  { unfold run_fast_body.
    rewrite (bind_ok _ _ _ _ _ E1). exact E2. }
  rewrite R2, G2, B2, N2, P2, P1.
  rewrite (temperature_frame _ _ _ F2) by not_in.
  auto 10.
Qed.

Lemma run_slow_body_advances (draw : nat) (s : DemoProcess)
    (r g b : Spec.BoundedRange Z) (n : Z) :
  (draw < 4)%nat ->
  red_range s = Some r -> green_range s = Some g ->
  blue_range s = Some b -> demo_color_number s = Some (PyInt n) ->
  exists s',
    run_slow_body curses draw s = Ok tt s' /\
    red_range s' = Some (Spec.advance_int r) /\
    green_range s' = Some (Spec.advance_int g) /\
    blue_range s' = Some (Spec.advance_int b) /\
    demo_color_number s' = Some (PyInt n) /\
    temperature_range s' = Spec.advance_int (temperature_range s) /\
    percent_range s' = percent_range s.
Proof.
  intros Hd Hr Hg Hb Hn.
  destruct (_update_temperature_advance s) as (s1 & E1 & T1 & F1).
  destruct (color_frame _ _ _ F1) as (R1 & G1 & B1 & N1); try not_in.
  destruct (_update_state_returns draw s1 Hd) as (s2 & E2 & F2).
  destruct (color_frame _ _ _ F2) as (R2 & G2 & B2 & N2); try not_in.
  destruct (_update_color_returns s2 r g b n)
    as (s3 & E3 & R3 & G3 & B3 & N3 & T3 & P3); try congruence.
  exists s3. split.
  { unfold run_slow_body.
    rewrite (bind_ok _ _ _ _ _ E1), (bind_ok _ _ _ _ _ E2). exact E3. }
  rewrite R3, G3, B3, N3, T3, P3.
  rewrite (temperature_frame _ _ _ F2) by not_in.
  rewrite (percent_frame _ _ _ F2) by not_in.
  rewrite (percent_frame _ _ _ F1) by not_in.
  rewrite T1. auto 10.
Qed.

Lemma run_schedule_advances (l : list tick) (s : DemoProcess)
    (r g b : Spec.BoundedRange Z) (n : Z) :
  forallb draw_ok l = true ->
  red_range s = Some r -> green_range s = Some g ->
  blue_range s = Some b -> demo_color_number s = Some (PyInt n) ->
  valid_binary prec emax (_percent_delta s) = true ->
  exists s',
    run_schedule curses l s = Ok tt s' /\
    red_range s' = Some (Nat.iter (List.length l) Spec.advance_int r) /\
    green_range s' = Some (Nat.iter (List.length l) Spec.advance_int g) /\
    blue_range s' = Some (Nat.iter (List.length l) Spec.advance_int b) /\
    temperature_range s'
      = Nat.iter (List.length (filter (fun t => negb (is_fast t)) l))
          Spec.advance_int (temperature_range s) /\
    percent_range s'
      = Nat.iter (List.length (filter is_fast l))
          Spec.advance_float (percent_range s).
Proof.
  revert s r g b.
  induction l as [| t rest IH]; intros s r g b Hd Hr Hg Hb Hn Hv.
  - exists s. cbn. auto 10.
  - cbn [forallb] in Hd. apply andb_prop in Hd as [Hd1 Hd2].
    destruct t as [| draw].
    + destruct (run_fast_body_advances s r g b n Hr Hg Hb Hn Hv)
        as (s1 & E1 & R1 & G1 & B1 & N1 & T1 & P1).
      assert (Hv1 : valid_binary prec emax (_percent_delta s1) = true).
      { change (_percent_delta s1) with (Spec.step (percent_range s1)).
        rewrite P1. apply advance_float_step_valid. exact Hv. }
      destruct (IH s1 _ _ _ Hd2 R1 G1 B1 N1 Hv1)
        as (s' & E & R & G & B & T & P).
      exists s'. split.
      { cbn [run_schedule]. rewrite (bind_ok _ _ _ _ _ E1). exact E. }
      cbn [List.length filter is_fast negb].
      rewrite R, G, B, T, P, T1, P1, !Nat.iter_succ_r. auto 10.
    + cbn [draw_ok] in Hd1. apply Nat.ltb_lt in Hd1.
      destruct (run_slow_body_advances draw s r g b n Hd1 Hr Hg Hb Hn)
        as (s1 & E1 & R1 & G1 & B1 & N1 & T1 & P1).
      assert (Hv1 : valid_binary prec emax (_percent_delta s1) = true).
      { change (_percent_delta s1) with (Spec.step (percent_range s1)).
        rewrite P1. exact Hv. }
      destruct (IH s1 _ _ _ Hd2 R1 G1 B1 N1 Hv1)
        as (s' & E & R & G & B & T & P).
      exists s'. split.
      { cbn [run_schedule]. rewrite (bind_ok _ _ _ _ _ E1). exact E. }
      cbn [List.length filter is_fast negb].
      rewrite R, G, B, T, P, T1, P1, !Nat.iter_succ_r. auto 10.
Qed.

End Interleaving.

(** X13. The two tasks do not disturb each other. However the event
    loop interleaves the bodies of the fast and of the slow task, on a
    terminal that accepts the colour definitions and from an instance
    with seeded colours, the run returns normally and each range has
    advanced once per body that updates it: the colour channels once
    per body of either task, the temperature once per slow body, the
    percent once per fast body. *)
Theorem tasks_interleave
    (curses : Curses) (l : list tick) (s : DemoProcess)
    (r g b : Spec.BoundedRange Z) (n : Z) :
  (forall c x y z, init_color curses c x y z = true) ->
  forallb draw_ok l = true ->
  red_range s = Some r -> green_range s = Some g ->
  blue_range s = Some b -> demo_color_number s = Some (PyInt n) ->
  valid_binary prec emax (_percent_delta s) = true ->
  exists s',
    run_schedule curses l s = Ok tt s' /\
    red_range s' = Some (Nat.iter (List.length l) Spec.advance_int r) /\
    green_range s' = Some (Nat.iter (List.length l) Spec.advance_int g) /\
    blue_range s' = Some (Nat.iter (List.length l) Spec.advance_int b) /\
    temperature_range s'
      = Nat.iter (List.length (filter (fun t => negb (is_fast t)) l))
          Spec.advance_int (temperature_range s) /\
    percent_range s'
      = Nat.iter (List.length (filter is_fast l))
          Spec.advance_float (percent_range s).
Proof.
  intros Hc. exact (run_schedule_advances curses Hc l s r g b n).
Qed.

Lemma tasks_interleave_witness :
  let s0 := state_of (_init_demo_color accepting ui_256 __init__) in
  let l := [Fast; Slow 2; Fast; Fast; Slow 0; Fast]%nat in
  exists s',
    run_schedule accepting l s0 = Ok tt s' /\
    red_range s'
      = Some (Nat.iter 6 Spec.advance_int
                {| Spec.current := 500; Spec.floor := 0;
                   Spec.ceiling := 999; Spec.step := 3 |}) /\
    green_range s'
      = Some (Nat.iter 6 Spec.advance_int
                {| Spec.current := 500; Spec.floor := 0;
                   Spec.ceiling := 999; Spec.step := 6 |}) /\
    blue_range s'
      = Some (Nat.iter 6 Spec.advance_int
                {| Spec.current := 500; Spec.floor := 0;
                   Spec.ceiling := 999; Spec.step := 9 |}) /\
    temperature_range s'
      = Nat.iter 2 Spec.advance_int (temperature_range s0) /\
    percent_range s'
      = Nat.iter 4 Spec.advance_float (percent_range s0).
Proof.
  intros s0 l.
  apply (tasks_interleave accepting l s0 _ _ _ 255); reflexivity.
Defined.
